(** * Transport dashboard (app.py): normalisation, filters and aggregates

    A shallow embedding of the data pipeline of [app.py]: the column
    renaming, the date and cost coercions, the sidebar filters and the
    aggregates shown on the page.  Widgets and charts are not modelled;
    the values the two sidebar widgets return are inputs of the model
    (the minimum and maximum date of line 49 only set the default of the
    date widget).

    Modelling choices.
    - A pandas cell is a [cell]: a missing value (NaN, None, NaT), a
      number, a text or a timestamp.  float64 values are modelled by
      exact rationals ([Qc]); rounding and infinities are outside the
      model.  Timestamps are nanoseconds since the epoch ([Z]).
    - A DataFrame is its list of column labels together with its rows,
      each row a finite map from labels to cells.  [read_excel] yields
      pairwise different labels; an upload that holds a known header
      together with its canonical name gets two columns of one label
      at line 33, on which pandas hands out a DataFrame where the
      script expects a column.  The model reads the first such column,
      so every statement about an upload assumes [distinct_labels] of
      the renamed frame.
    - Sums are exact in the model.  A statement that compares sums
      taken in different orders assumes [exact_column]: whole numbers
      whose absolute values add up to at most 2^53, on which the int64
      and float64 sums of pandas are exact as well.
    - A Python exception is a [Raise] in the [result] monad. *)

From Stdlib Require Import QArith Qcanon.
From stdpp Require Import base numbers strings sorting gmap list.

Open Scope string_scope.

(** ** Python results *)

Inductive exn :=
  | KeyError (label : string)
  | AttributeError
  | TypeError
  | IndexError.

Inductive result (A : Type) :=
  | Ok (a : A)
  | Raise (e : exn).
Arguments Ok {A} a.
Arguments Raise {A} e.

#[global] Instance result_ret : MRet result := @Ok.
#[global] Instance result_bind : MBind result := λ A B f m,
  match m with Ok a => f a | Raise e => Raise e end.

Fixpoint result_map {A B} (f : A → result B) (l : list A) : result (list B) :=
  match l with
  | [] => Ok []
  | x :: l' => y ← f x; ys ← result_map f l'; Ok (y :: ys)
  end.

Definition succeeds {A} (m : result A) : Prop := ∃ a, m = Ok a.

(** ** Cells and Series *)

Inductive cell :=
  | NaN
  | Num (q : Qc)
  | Str (s : string)
  | Timestamp (t : Z).

#[global] Instance cell_eq_dec : EqDecision cell.
Proof. solve_decision. Defined.

Abbreviation Series := (list cell).

Definition isna (c : cell) : bool :=
  match c with NaN => true | _ => false end.

(** [Series.dropna()] *)
Definition dropna (s : Series) : Series := filter (λ c, c ≠ NaN) s.

(** [Series.nunique()]: the number of distinct values, missing ones left out. *)
Definition nunique (s : Series) : nat := length (remove_dups (dropna s)).

(** [Series.sum()], with [skipna=True].  A text or timestamp operand makes
    the reduction (or the numeric format applied to its result) fail. *)
Fixpoint series_sum (s : Series) : result Qc :=
  match s with
  | [] => Ok 0%Qc
  | NaN :: s' => series_sum s'
  | Num q :: s' => a ← series_sum s'; Ok (q + a)%Qc
  | _ :: _ => Raise TypeError
  end.

(** The number of values that are not missing, [Series.count()]. *)
Definition series_count (s : Series) : nat := length (dropna s).

Definition Qc_of_nat (n : nat) : Qc := Q2Qc (inject_Z (Z.of_nat n)).

(** [Series.mean()]: NaN when there is no value to average. *)
Definition series_mean (s : Series) : result cell :=
  a ← series_sum s;
  Ok (match series_count s with
      | O => NaN
      | S _ as n => Num (a / Qc_of_nat n)%Qc
      end).

(** The number held by a cell, 0 for a cell that holds none. *)
Definition number_of (c : cell) : Qc :=
  match c with Num q => q | _ => 0%Qc end.

(** [Series.fillna(0)] *)
Definition fillna0 (s : Series) : Series :=
  (λ c, if isna c then Num 0%Qc else c) <$> s.

(** [Series.isin(values)] *)
Definition isin (s : Series) (values : list cell) : list bool :=
  (λ c, bool_decide (c ∈ values)) <$> s.

(** Comparison of a datetime column with a [Timestamp]: NaT compares
    false, a cell that is not a timestamp is a type error. *)
Definition cmp_timestamp (op : Z → Z → bool) (t : Z) (c : cell) : result bool :=
  match c with
  | Timestamp x => Ok (op x t)
  | NaN => Ok false
  | _ => Raise TypeError
  end.

Definition series_ge (s : Series) (t : Z) : result (list bool) :=
  result_map (cmp_timestamp Z.geb t) s.
Definition series_le (s : Series) (t : Z) : result (list bool) :=
  result_map (cmp_timestamp Z.leb t) s.

(** [mask1 & mask2] *)
Definition mask_and (m1 m2 : list bool) : list bool := zip_with andb m1 m2.

(** [s1 + s2], element by element. *)
Definition cell_add (a b : cell) : result cell :=
  match a, b with
  | Num x, Num y => Ok (Num (x + y)%Qc)
  | NaN, (NaN | Num _) | Num _, NaN => Ok NaN
  | Str x, Str y => Ok (Str (x ++ y))
  | _, _ => Raise TypeError
  end.

Definition series_add (s1 s2 : Series) : result Series :=
  result_map (λ p, cell_add p.1 p.2) (zip s1 s2).

(** The order in which keys are listed by [groupby] (sort=True): numbers
    before timestamps before texts, each kind in its own order. *)
Definition cell_leb (a b : cell) : bool :=
  match a, b with
  | Num x, Num y => bool_decide (x ≤ y)%Qc
  | Timestamp x, Timestamp y => (x <=? y)%Z
  | Str x, Str y => String.leb x y
  | Num _, (Timestamp _ | Str _ | NaN) => true
  | Timestamp _, (Str _ | NaN) => true
  | Str _, NaN => true
  | NaN, NaN => true
  | _, _ => false
  end.

Definition group_keys (keys : Series) : list cell :=
  merge_sort (λ a b, Is_true (cell_leb a b)) (remove_dups (dropna keys)).

(** The values of [vals] on the rows whose key is [k]. *)
Definition group_values (keys vals : Series) (k : cell) : Series :=
  snd <$> filter (λ p, p.1 = k) (zip keys vals).

(** ** DataFrames *)

Record DataFrame := mkDataFrame {
  columns : list string;
  rows : list (gmap string cell)
}.

Definition at_label (c : string) (r : gmap string cell) : cell :=
  default NaN (r !! c).

(** [df[c]] *)
Definition getitem (df : DataFrame) (c : string) : result Series :=
  if decide (c ∈ columns df) then Ok (at_label c <$> rows df)
  else Raise (KeyError c).

(** [df[c] = s] *)
Definition setitem (df : DataFrame) (c : string) (s : Series) : DataFrame :=
  {| columns := if decide (c ∈ columns df) then columns df else columns df ++ [c];
     rows := zip_with (λ r v, <[c := v]> r) (rows df) s |}.

(** [df.rename(columns=mapper)] *)
Definition rename_label (mapper : gmap string string) (c : string) : string :=
  default c (mapper !! c).

Definition rename (mapper : gmap string string) (df : DataFrame) : DataFrame :=
  {| columns := rename_label mapper <$> columns df;
     rows := (λ r, list_to_map ((λ c, (rename_label mapper c, at_label c r)) <$> columns df))
               <$> rows df |}.

(** [l[mask]]: the entries at which the mask is true. *)
Fixpoint bool_index {A} (l : list A) (mask : list bool) : list A :=
  match l, mask with
  | x :: l', b :: mask' =>
      if b then x :: bool_index l' mask' else bool_index l' mask'
  | _, _ => []
  end.

(** [df[mask]] *)
Definition loc_mask (df : DataFrame) (mask : list bool) : DataFrame :=
  {| columns := columns df; rows := bool_index (rows df) mask |}.

(** What [df.get(c, 0)] returns and [pd.to_numeric] passes on: a column,
    or the plain integer given as default. *)
Inductive pyobj :=
  | PySeries (s : Series)
  | PyInt (z : Z).

(** [df.get(c, default)] *)
Definition df_get (df : DataFrame) (c : string) (dflt : Z) : pyobj :=
  match getitem df c with
  | Ok s => PySeries s
  | Raise _ => PyInt dflt
  end.

(** [obj.fillna(0)]: a method of Series; a Python int has no such attribute. *)
Definition py_fillna0 (o : pyobj) : result Series :=
  match o with
  | PySeries s => Ok (fillna0 s)
  | PyInt _ => Raise AttributeError
  end.

(** [l.sort_values(...)] with the order given by [leb].  The order in
    which pandas lists rows of equal key is not modelled; no statement
    below depends on it. *)
Definition sort_values {A} (leb : A → A → bool) (l : list A) : list A :=
  merge_sort (λ a b, Is_true (leb a b)) l.

(** Order of a float column that may hold NaN: NaN is listed last, in
    ascending and in descending order alike. *)
Definition float_leb (ascending : bool) (a b : cell) : bool :=
  match a, b with
  | Num x, Num y =>
      if ascending then bool_decide (x ≤ y)%Qc else bool_decide (y ≤ x)%Qc
  | _, NaN => true
  | NaN, _ => false
  | _, _ => cell_leb a b
  end.

(** ** The script *)

(** What [st.sidebar.date_input] returns: a single date, or a tuple of
    the dates picked so far.  Dates are day numbers. *)
Inductive date_input :=
  | DateValue (d : Z)
  | DateTuple (ds : list Z).

Definition ns_per_day : Z := 86400000000000.

(** [pd.to_datetime(d)] of a date: midnight of that day. *)
Definition timestamp_of_date (d : Z) : Z := d * ns_per_day.

Definition COLUMN_MAP : gmap string string :=
  list_to_map [
    ("MX02:วันที่มอบหมายงาน", "assign_date");
    ("job_id", "job_id");
    ("MX12:จำนวนใบนำส่ง (ใบ)", "num_deliveries");
    ("MX12:จำนวนสินค้า (รายการ)", "num_items");
    ("MX12:ค่าเที่ยวขนส่ง (บาท)", "total_cost");
    ("MX12:ค่าเที่ยวเพิ่มเติม (บาท)", "additional_cost");
    ("MX12:เส้นทางขนส่ง", "route_name");
    ("MX12:nan ส่งสำเร็จ", "success_count");
    ("MX12:nan ไม่สำเร็จ", "fail_count")
  ].

Record summary := mkSummary {
  total_jobs : nat;
  total_deliveries : Qc;
  total_items : Qc
}.

Record trend_row := mkTrendRow {
  tr_assign_date : cell;
  tr_jobs : nat;
  tr_deliveries : Qc;
  tr_items : Qc
}.

Record cost_view := mkCostView {
  total_cost_sum : Qc;
  avg_cost_job : cell;
  base_cost : Qc;
  additional_cost_value : Qc
}.

Record route_row := mkRouteRow {
  rp_route_name : cell;
  rp_total_jobs : nat;
  rp_total_cost : Qc;
  rp_avg_cost : cell
}.

Record route_view := mkRouteView {
  route_perf : list route_row;
  routes_by_jobs : list route_row;
  top_routes_cost : list route_row;
  cheapest_name : cell;
  cheapest_value : cell;
  cheapest_routes : list route_row;
  expensive_routes : list route_row
}.

Record delivery_view := mkDeliveryView {
  total_success : Qc;
  total_fail : Qc;
  success_pct : Qc;
  fail_pct : Qc
}.

Record dashboard := mkDashboard {
  d_summary : summary;
  d_trend : option (list trend_row);
  d_cost : cost_view;
  d_routes_cost : option (list (cell * Qc));
  d_routes : option route_view;
  d_delivery : option delivery_view;
  d_filtered : DataFrame
}.

(** The scalar conversions of pandas' parsers: a day-first date text,
    a number read as a timestamp, a numeric text, a timestamp read as a
    number.  [None] is a value that cannot be converted. *)
Class Parsers := {
  parse_datetime : string → option Z;
  datetime_of_number : Qc → option Z;
  parse_number : string → option Qc;
  number_of_datetime : Z → option Qc
}.

Section App.

Context `{Parsers}.

(** [pd.to_datetime(s, errors="coerce", dayfirst=True)], cell by cell:
    what cannot be read as a date becomes NaT. *)
Definition to_datetime_cell (c : cell) : cell :=
  match c with
  | NaN => NaN
  | Timestamp t => Timestamp t
  | Str x => from_option Timestamp NaN (parse_datetime x)
  | Num q => from_option Timestamp NaN (datetime_of_number q)
  end.

Definition to_datetime (s : Series) : Series := to_datetime_cell <$> s.

(** [pd.to_numeric(arg, errors="coerce")]: a column is converted cell
    by cell, what cannot be read as a number becoming NaN; a scalar
    that is a number already is returned as it is. *)
Definition to_numeric_cell (c : cell) : cell :=
  match c with
  | NaN => NaN
  | Num q => Num q
  | Str x => from_option Num NaN (parse_number x)
  | Timestamp t => from_option Num NaN (number_of_datetime t)
  end.

Definition to_numeric (arg : pyobj) : pyobj :=
  match arg with
  | PySeries s => PySeries (to_numeric_cell <$> s)
  | PyInt z => PyInt z
  end.

(** Line 33: the known headers become the canonical names. *)
Definition renamed (df_raw : DataFrame) : DataFrame :=
  rename (filter (λ kv, kv.1 ∈ columns df_raw) COLUMN_MAP) df_raw.

(** What lines 36-44 leave in a row [r] of the renamed frame, whose
    labels are [cols]. *)
Definition normalized_row (cols : list string) (r : gmap string cell) : gmap string cell :=
  let r1 :=
    if decide ("assign_date" ∈ cols)
    then <["assign_date" := to_datetime_cell (at_label "assign_date" r)]> r
    else r in
  let x := number_of (to_numeric_cell (at_label "total_cost" r1)) in
  let r2 := <["total_cost" := Num x]> r1 in
  let y := number_of (to_numeric_cell (at_label "additional_cost" r2)) in
  let r3 := <["additional_cost" := Num y]> r2 in
  <["cost_sum" := Num (x + y)%Qc]> r3.

(** Lines 32-44: rename, convert the date, fill the costs, add them. *)
Definition normalize (df_raw : DataFrame) : result DataFrame :=
  let df := renamed df_raw in
  df ← (if decide ("assign_date" ∈ columns df)
        then s ← getitem df "assign_date";
             Ok (setitem df "assign_date" (to_datetime s))
        else Ok df);
  tc ← py_fillna0 (to_numeric (df_get df "total_cost" 0));
  let df := setitem df "total_cost" tc in
  ac ← py_fillna0 (to_numeric (df_get df "additional_cost" 0));
  let df := setitem df "additional_cost" ac in
  tc ← getitem df "total_cost";
  ac ← getitem df "additional_cost";
  cs ← series_add tc ac;
  Ok (setitem df "cost_sum" cs).

End App.

(** Lines 48-53: the date filter. *)
Definition date_filter (df : DataFrame) (date_range : date_input) : result DataFrame :=
  if decide ("assign_date" ∈ columns df) then
    match date_range with
    | DateTuple [d0; d1] =>
        let start_date := timestamp_of_date d0 in
        let end_date := timestamp_of_date d1 in
        a ← getitem df "assign_date";
        ge ← series_ge a start_date;
        a ← getitem df "assign_date";
        le ← series_le a end_date;
        Ok (loc_mask df (mask_and ge le))
    | _ => Ok df
    end
  else Ok df.

(** Lines 55-58: the route filter. *)
Definition route_filter_step (df : DataFrame) (route_filter : list cell) : result DataFrame :=
  if decide ("route_name" ∈ columns df) then
    match route_filter with
    | [] => Ok df
    | _ :: _ =>
        s ← getitem df "route_name";
        Ok (loc_mask df (isin s route_filter))
    end
  else Ok df.

Definition apply_filters (df : DataFrame) (date_range : date_input)
    (route_filter : list cell) : result DataFrame :=
  df ← date_filter df date_range;
  route_filter_step df route_filter.

(** Lines 63-66 *)
Definition operational_summary (df : DataFrame) : result summary :=
  j ← getitem df "job_id";
  d ← getitem df "num_deliveries";
  d ← series_sum d;
  i ← getitem df "num_items";
  i ← series_sum i;
  Ok (mkSummary (nunique j) d i).

(** Lines 69-73 *)
Definition trend_df (df : DataFrame) : result (list trend_row) :=
  ks ← getitem df "assign_date";
  js ← getitem df "job_id";
  ds ← getitem df "num_deliveries";
  ns ← getitem df "num_items";
  result_map (λ k,
      d ← series_sum (group_values ks ds k);
      i ← series_sum (group_values ks ns k);
      Ok (mkTrendRow k (nunique (group_values ks js k)) d i))
    (group_keys ks).

(** Lines 88-96 *)
Definition cost_analysis (df : DataFrame) : result cost_view :=
  cs ← getitem df "cost_sum";
  total ← series_sum cs;
  cs ← getitem df "cost_sum";
  avg ← series_mean cs;
  tc ← getitem df "total_cost";
  tc ← series_sum tc;
  ac ← getitem df "additional_cost";
  ac ← series_sum ac;
  Ok (mkCostView total avg tc ac).

(** Line 101 *)
Definition routes_cost (df : DataFrame) : result (list (cell * Qc)) :=
  ks ← getitem df "route_name";
  cs ← getitem df "cost_sum";
  l ← result_map (λ k, c ← series_sum (group_values ks cs k); Ok (k, c))
        (group_keys ks);
  Ok (take 10 (sort_values (λ a b, bool_decide (b.2 ≤ a.2)%Qc) l)).

(** Lines 111-115 *)
Definition route_groups (df : DataFrame) : result (list route_row) :=
  ks ← getitem df "route_name";
  js ← getitem df "job_id";
  cs ← getitem df "cost_sum";
  result_map (λ k,
      c ← series_sum (group_values ks cs k);
      a ← series_mean (group_values ks cs k);
      Ok (mkRouteRow k (nunique (group_values ks js k)) c a))
    (group_keys ks).

(** [frame.iloc[0]] *)
Definition iloc0 {A} (l : list A) : result A :=
  match l with
  | x :: _ => Ok x
  | [] => Raise IndexError
  end.

(** Lines 109-162 *)
Definition route_performance (df : DataFrame) : result route_view :=
  rp ← route_groups df;
  let by_jobs := sort_values (λ a b, bool_decide (rp_total_jobs b ≤ rp_total_jobs a)%nat) rp in
  let top_cost := take 10 (sort_values (λ a b, bool_decide (rp_total_cost b ≤ rp_total_cost a)%Qc) rp) in
  let cheapest_route := take 1 (sort_values (λ a b, float_leb true (rp_avg_cost a) (rp_avg_cost b)) rp) in
  c ← iloc0 cheapest_route;
  let cheapest := take 10 (sort_values (λ a b, float_leb true (rp_avg_cost a) (rp_avg_cost b)) rp) in
  let expensive := take 10 (sort_values (λ a b, float_leb false (rp_avg_cost a) (rp_avg_cost b)) rp) in
  Ok (mkRouteView rp by_jobs top_cost (rp_route_name c) (rp_avg_cost c) cheapest expensive).

(** Lines 169-174 *)
Definition delivery_performance (df : DataFrame) : result (option delivery_view) :=
  if decide ("success_count" ∈ columns df ∧ "fail_count" ∈ columns df) then
    s ← getitem df "success_count";
    total_success ← series_sum s;
    f ← getitem df "fail_count";
    total_fail ← series_sum f;
    let total_deliveries := (total_success + total_fail)%Qc in
    let success_pct :=
      if decide (total_deliveries = 0%Qc) then 0%Qc
      else (total_success / total_deliveries * Qc_of_nat 100)%Qc in
    let fail_pct :=
      if decide (total_deliveries = 0%Qc) then 0%Qc
      else (total_fail / total_deliveries * Qc_of_nat 100)%Qc in
    Ok (Some (mkDeliveryView total_success total_fail success_pct fail_pct))
  else Ok None.

(** [Some <$> m] when the column is there, the view is skipped otherwise. *)
Definition when_column {A} (df : DataFrame) (c : string) (m : result A) : result (option A) :=
  if decide (c ∈ columns df) then a ← m; Ok (Some a) else Ok None.

(** The page, from the filtered frame on (lines 60-189). *)
Definition render (df : DataFrame) : result dashboard :=
  s ← operational_summary df;
  t ← when_column df "assign_date" (trend_df df);
  c ← cost_analysis df;
  rc ← when_column df "route_name" (routes_cost df);
  r ← when_column df "route_name" (route_performance df);
  d ← delivery_performance df;
  Ok (mkDashboard s t c rc r d df).

Section Script.

Context `{Parsers}.

(** Lines 32-58: the frame that is shown, for one uploaded table and
    one choice made in the two sidebar widgets. *)
Definition filtered (df_raw : DataFrame) (date_range : date_input)
    (route_filter : list cell) : result DataFrame :=
  df ← normalize df_raw;
  apply_filters df date_range route_filter.

(** The whole script. *)
Definition app (df_raw : DataFrame) (date_range : date_input)
    (route_filter : list cell) : result dashboard :=
  df ← filtered df_raw date_range route_filter;
  render df.

End Script.

(** ** Properties of frames used in the statements *)

(** A cell of a datetime column: a timestamp or NaT. *)
Definition is_datetime (c : cell) : bool :=
  match c with NaN | Timestamp _ => true | _ => false end.

(** A cell of a numeric column: a number or NaN. *)
Definition is_numeric (c : cell) : bool :=
  match c with NaN | Num _ => true | _ => false end.

(** A cell that holds a number. *)
Definition is_number (c : cell) : bool :=
  match c with Num _ => true | _ => false end.

(** The column [c], when the frame has it, holds timestamps and NaT
    only (dtype datetime64). *)
Definition datetime_column (df : DataFrame) (c : string) : Prop :=
  c ∈ columns df → Forall (λ r, is_datetime (at_label c r)) (rows df).

(** The column [c], when the frame has it, holds numbers and NaN only. *)
Definition numeric_column (df : DataFrame) (c : string) : Prop :=
  c ∈ columns df → Forall (λ r, is_numeric (at_label c r)) (rows df).

(** The frame has the column [c] and it holds numbers only. *)
Definition filled_column (df : DataFrame) (c : string) : Prop :=
  c ∈ columns df ∧ Forall (λ r, is_number (at_label c r)) (rows df).

(** The total of a list of numbers and the total of a column over rows. *)
Definition total (l : list Qc) : Qc := foldr Qcplus 0%Qc l.

Definition column_total (c : string) (rs : list (gmap string cell)) : Qc :=
  total ((λ r, number_of (at_label c r)) <$> rs).

(** The bounds of the date filter when it is active: the date column is
    there and the widget returned a pair of dates. *)
Definition active_dates (df : DataFrame) (date_range : date_input) : option (Z * Z) :=
  if decide ("assign_date" ∈ columns df) then
    match date_range with
    | DateTuple [d0; d1] => Some (timestamp_of_date d0, timestamp_of_date d1)
    | _ => None
    end
  else None.

(** The selected routes when the route filter is active: the route
    column is there and the selection is not empty. *)
Definition active_routes (df : DataFrame) (route_filter : list cell) : option (list cell) :=
  if decide ("route_name" ∈ columns df) then
    match route_filter with [] => None | _ :: _ => Some route_filter end
  else None.

(** The rows the filter is said to keep. *)
Definition in_dates (dates : option (Z * Z)) (r : gmap string cell) : Prop :=
  match dates with
  | None => True
  | Some (start_date, end_date) =>
      match at_label "assign_date" r with
      | Timestamp t => (start_date ≤ t ∧ t ≤ end_date)%Z
      | _ => False
      end
  end.

Definition in_routes (routes : option (list cell)) (r : gmap string cell) : Prop :=
  match routes with
  | None => True
  | Some selected => at_label "route_name" r ∈ selected
  end.

Definition kept_row (dates : option (Z * Z)) (routes : option (list cell))
    (r : gmap string cell) : Prop :=
  in_dates dates r ∧ in_routes routes r.

#[global] Instance in_dates_dec dates r : Decision (in_dates dates r).
Proof.
  unfold in_dates. destruct dates as [[??]|]; [|apply _].
  destruct (at_label "assign_date" r); apply _.
Defined.

#[global] Instance in_routes_dec routes r : Decision (in_routes routes r).
Proof. unfold in_routes. destruct routes; apply _. Defined.

#[global] Instance kept_row_dec dates routes r : Decision (kept_row dates routes r).
Proof. unfold kept_row. apply _. Defined.

(** [Series.mean()] of a numeric column, as a value. *)
Definition mean_cell (s : Series) : cell :=
  match series_count s with
  | O => NaN
  | S _ as n => Num (total (number_of <$> s) / Qc_of_nat n)%Qc
  end.

(** The rows of the group of route [k], and its distinct job ids. *)
Definition route_rows (rs : list (gmap string cell)) (k : cell) : list (gmap string cell) :=
  filter (λ r, at_label "route_name" r = k) rs.

Definition route_jobs (rs : list (gmap string cell)) (k : cell) : list cell :=
  remove_dups (dropna (at_label "job_id" <$> route_rows rs k)).

(** No job id is found under two different routes. *)
Definition one_route_per_job (df : DataFrame) : Prop :=
  Forall (λ r1, Forall (λ r2,
      at_label "job_id" r1 = at_label "job_id" r2 →
      at_label "job_id" r1 ≠ NaN →
      at_label "route_name" r1 ≠ NaN →
      at_label "route_name" r2 ≠ NaN →
      at_label "route_name" r1 = at_label "route_name" r2) (rows df)) (rows df).

(** Every row has a route. *)
Definition all_routed (df : DataFrame) : Prop :=
  Forall (λ r, at_label "route_name" r ≠ NaN) (rows df).

(** Some row has a route, so that [groupby("route_name")] has a group. *)
Definition has_routed_row (df : DataFrame) : Prop :=
  Exists (λ r, at_label "route_name" r ≠ NaN) (rows df).

(** The trend and route tables, as values. *)
Definition trend_row_of (rs : list (gmap string cell)) (k : cell) : trend_row :=
  let g := filter (λ r, at_label "assign_date" r = k) rs in
  mkTrendRow k (nunique (at_label "job_id" <$> g))
    (column_total "num_deliveries" g) (column_total "num_items" g).

Definition route_row_of (rs : list (gmap string cell)) (k : cell) : route_row :=
  mkRouteRow k (length (route_jobs rs k))
    (column_total "cost_sum" (route_rows rs k))
    (mean_cell (at_label "cost_sum" <$> route_rows rs k)).

(** ** Sample tables *)

Definition num (z : Z) : cell := Num (Q2Qc (inject_Z z)).

(** The timestamp of a day, as a cell. *)
Definition day (d : Z) : cell := Timestamp (timestamp_of_date d).

(** Parsers that read nothing: every text becomes NaT or NaN. *)
Definition no_parsers : Parsers :=
  {| parse_datetime := λ _, None;
     datetime_of_number := λ _, None;
     parse_number := λ _, None;
     number_of_datetime := λ _, None |}.

(** An upload of one row that has the job and count columns and neither
    cost column. *)
Definition upload_without_costs : DataFrame :=
  mkDataFrame
    ["job_id"; "MX12:จำนวนใบนำส่ง (ใบ)"; "MX12:จำนวนสินค้า (รายการ)"]
    [list_to_map [("job_id", num 1);
                  ("MX12:จำนวนใบนำส่ง (ใบ)", num 2);
                  ("MX12:จำนวนสินค้า (รายการ)", num 3)]].

(** An upload of one row that has the count and cost columns and no
    [job_id]. *)
Definition upload_without_job_id : DataFrame :=
  mkDataFrame
    ["MX12:จำนวนใบนำส่ง (ใบ)"; "MX12:จำนวนสินค้า (รายการ)";
     "MX12:ค่าเที่ยวขนส่ง (บาท)"; "MX12:ค่าเที่ยวเพิ่มเติม (บาท)"]
    [list_to_map [("MX12:จำนวนใบนำส่ง (ใบ)", num 2);
                  ("MX12:จำนวนสินค้า (รายการ)", num 3);
                  ("MX12:ค่าเที่ยวขนส่ง (บาท)", num 100);
                  ("MX12:ค่าเที่ยวเพิ่มเติม (บาท)", num 20)]].

(** An upload of two rows that has the job, count and cost columns and
    no date, route, success or fail column. *)
Definition upload_required_only : DataFrame :=
  mkDataFrame
    ["job_id"; "MX12:จำนวนใบนำส่ง (ใบ)"; "MX12:จำนวนสินค้า (รายการ)";
     "MX12:ค่าเที่ยวขนส่ง (บาท)"; "MX12:ค่าเที่ยวเพิ่มเติม (บาท)"]
    [list_to_map [("job_id", num 1);
                  ("MX12:จำนวนใบนำส่ง (ใบ)", num 2);
                  ("MX12:จำนวนสินค้า (รายการ)", num 3);
                  ("MX12:ค่าเที่ยวขนส่ง (บาท)", num 100);
                  ("MX12:ค่าเที่ยวเพิ่มเติม (บาท)", Str "n/a")];
     list_to_map [("job_id", num 2);
                  ("MX12:จำนวนใบนำส่ง (ใบ)", num 1);
                  ("MX12:จำนวนสินค้า (รายการ)", num 5);
                  ("MX12:ค่าเที่ยวขนส่ง (บาท)", num 300);
                  ("MX12:ค่าเที่ยวเพิ่มเติม (บาท)", num 20)]].

Definition canonical_columns : list string :=
  ["assign_date"; "job_id"; "num_deliveries"; "num_items"; "total_cost";
   "additional_cost"; "route_name"; "success_count"; "fail_count"; "cost_sum"].

Definition canonical_row (date job route : cell) (cost extra ok ko : Z) : gmap string cell :=
  list_to_map [("assign_date", date); ("job_id", job); ("num_deliveries", num 2);
               ("num_items", num 3); ("total_cost", num cost);
               ("additional_cost", num extra); ("route_name", route);
               ("success_count", num ok); ("fail_count", num ko);
               ("cost_sum", num (cost + extra))].

(** Three canonical rows: 2024-01-01 and 2024-01-02 (days 19723 and
    19724) and a row without a date. *)
Definition sample_frame : DataFrame :=
  mkDataFrame canonical_columns
    [canonical_row (day 19723) (num 1) (Str "A") 100 0 2 0;
     canonical_row (day 19724) (num 2) (Str "A") 250 50 1 1;
     canonical_row NaN (num 3) (Str "B") 50 0 0 0].

(** Two canonical rows of one job, under two routes. *)
Definition shared_job_frame : DataFrame :=
  mkDataFrame canonical_columns
    [canonical_row (day 19723) (num 1) (Str "A") 100 0 1 0;
     canonical_row (day 19724) (num 1) (Str "B") 300 0 1 0].

(** The canonical columns and no row. *)
Definition empty_frame : DataFrame := mkDataFrame canonical_columns [].

(** ** Further notions used in the statements *)

(** The number lines 40-41 leave in a cost cell: the number it holds or
    reads as, 0 for a missing cell and for one that reads as no number. *)
Definition filled_cost `{Parsers} (c : cell) : Qc :=
  match c with
  | NaN => 0%Qc
  | Num q => q
  | Str x => default 0%Qc (parse_number x)
  | Timestamp t => default 0%Qc (number_of_datetime t)
  end.

(** On a row, [cost_sum] is the sum of the two cost cells, all numbers. *)
Definition cost_sum_holds (r : gmap string cell) : Prop :=
  ∃ x y, at_label "total_cost" r = Num x
    ∧ at_label "additional_cost" r = Num y
    ∧ at_label "cost_sum" r = Num (x + y)%Qc.

(** The labels lines 36-44 write to. *)
Definition written_labels : list string :=
  ["assign_date"; "total_cost"; "additional_cost"; "cost_sum"].

(** Two timestamps, the first strictly before the second. *)
Definition date_before (a b : cell) : Prop :=
  match a, b with
  | Timestamp s, Timestamp t => (s < t)%Z
  | _, _ => False
  end.

(** An upload of three rows under the nine known headers: a dated row,
    a row whose date is a text, a row without date and route. *)
Definition upload_headers : list string :=
  ["MX02:วันที่มอบหมายงาน"; "job_id"; "MX12:จำนวนใบนำส่ง (ใบ)";
   "MX12:จำนวนสินค้า (รายการ)"; "MX12:ค่าเที่ยวขนส่ง (บาท)";
   "MX12:ค่าเที่ยวเพิ่มเติม (บาท)"; "MX12:เส้นทางขนส่ง";
   "MX12:nan ส่งสำเร็จ"; "MX12:nan ไม่สำเร็จ"].

Definition upload_row (date job route cost extra : cell) (ok ko : Z) : gmap string cell :=
  list_to_map [("MX02:วันที่มอบหมายงาน", date); ("job_id", job);
               ("MX12:จำนวนใบนำส่ง (ใบ)", num 2);
               ("MX12:จำนวนสินค้า (รายการ)", num 3);
               ("MX12:ค่าเที่ยวขนส่ง (บาท)", cost);
               ("MX12:ค่าเที่ยวเพิ่มเติม (บาท)", extra);
               ("MX12:เส้นทางขนส่ง", route);
               ("MX12:nan ส่งสำเร็จ", num ok); ("MX12:nan ไม่สำเร็จ", num ko)].

Definition upload_full : DataFrame :=
  mkDataFrame upload_headers
    [upload_row (day 19723) (num 1) (Str "A") (num 100) NaN 2 0;
     upload_row (Str "soon") (num 2) (Str "B") (num 250) (num 50) 1 1;
     upload_row NaN (num 3) NaN (Str "free") (num 10) 0 0].

(** The labels of the frame are pairwise different. *)
Definition distinct_labels (df : DataFrame) : Prop := NoDup (columns df).

(** A cell that holds a whole number. *)
Definition is_integer (c : cell) : bool :=
  match c with
  | Num q => bool_decide (Qden (this q) = 1%positive)
  | _ => false
  end.

(** The absolute value of the numerator of the number of a cell. *)
Definition magnitude (c : cell) : Z := Z.abs (Qnum (this (number_of c))).

(** The column [c] holds whole numbers only, whose absolute values add
    up to at most 2^53: every sum of some of its cells is a whole
    number that int64 and float64 hold exactly. *)
Definition exact_column (c : string) (rs : list (gmap string cell)) : Prop :=
  Forall (λ r, is_integer (at_label c r)) rs
  ∧ (foldr Z.add 0 ((λ r, magnitude (at_label c r)) <$> rs) ≤ 2 ^ 53)%Z.

(** ** Lemmas on results, masks and columns *)

(** A decidable statement about given tables, settled by evaluation. *)
Ltac by_evaluation := apply (bool_decide_unpack _); vm_compute; exact I.


Lemma bind_Ok {A B} (a : A) (f : A → result B) : Ok a ≫= f = f a.
Proof. reflexivity. Qed.

Lemma result_map_Ok {A B} (f : A → result B) (g : A → B) (l : list A) :
  Forall (λ x, f x = Ok (g x)) l → result_map f l = Ok (g <$> l).
Proof.
  induction 1 as [|x l Hx _ IH]; [done|].
  rewrite fmap_cons. cbn [result_map]. by rewrite Hx, IH.
Qed.

Lemma bool_index_fmap {A} (f : A → bool) (l : list A) :
  bool_index l (f <$> l) = filter (λ x, f x) l.
Proof.
  induction l as [|x l IH]; [done|].
  rewrite fmap_cons, filter_cons. cbn [bool_index]. rewrite IH.
  by destruct (f x).
Qed.

Lemma mask_and_fmap {A} (f g : A → bool) (l : list A) :
  mask_and (f <$> l) (g <$> l) = (λ x, f x && g x) <$> l.
Proof.
  induction l as [|x l IH]; [done|].
  rewrite !fmap_cons. unfold mask_and in *. cbn [zip_with]. by rewrite IH.
Qed.

Lemma filter_all {A} (P : A → Prop) `{∀ x, Decision (P x)} (l : list A) :
  Forall P l → filter P l = l.
Proof.
  induction 1 as [|x l Hx _ IH]; [done|].
  rewrite filter_cons, decide_True by done. by rewrite IH.
Qed.

Lemma getitem_Ok df c :
  c ∈ columns df → getitem df c = Ok (at_label c <$> rows df).
Proof. intros Hc. unfold getitem. by rewrite decide_True. Qed.

Lemma getitem_missing df c :
  c ∉ columns df → getitem df c = Raise (KeyError c).
Proof. intros Hc. unfold getitem. by rewrite decide_False. Qed.

Lemma series_cmp_Ok op t (l : list (gmap string cell)) c :
  Forall (λ r, is_datetime (at_label c r)) l →
  result_map (cmp_timestamp op t) (at_label c <$> l)
  = Ok ((λ r, match at_label c r with Timestamp x => op x t | _ => false end) <$> l).
Proof.
  induction 1 as [|r l Hr _ IH]; [done|].
  rewrite !fmap_cons. cbn [result_map]. rewrite IH.
  by destruct (at_label c r).
Qed.

(** ** The filters *)

Lemma date_filter_spec df date_range :
  datetime_column df "assign_date" →
  date_filter df date_range
  = Ok {| columns := columns df;
          rows := filter (in_dates (active_dates df date_range)) (rows df) |}.
Proof.
  intros Hdt. unfold date_filter, active_dates, datetime_column in *.
  destruct df as [cols rs]; simpl in *.
  assert (Hid : filter (in_dates None) rs = rs).
  { apply filter_all, Forall_forall. by intros. }
  case_decide as Hc; [|by rewrite Hid].
  destruct date_range as [d|[|d0 [|d1 [|??]]]]; try by rewrite Hid.
  rewrite getitem_Ok by done. simpl. unfold series_ge, series_le.
  rewrite !series_cmp_Ok by auto. simpl.
  rewrite mask_and_fmap. unfold loc_mask; simpl. rewrite bool_index_fmap.
  do 2 f_equal. apply list_filter_iff. intros r. simpl.
  destruct (at_label "assign_date" r); simpl; try tauto.
  rewrite andb_True, !Is_true_true, Z.geb_le, Z.leb_le. reflexivity.
Qed.

Lemma route_filter_step_spec df route_filter :
  route_filter_step df route_filter
  = Ok {| columns := columns df;
          rows := filter (in_routes (active_routes df route_filter)) (rows df) |}.
Proof.
  unfold route_filter_step, active_routes.
  destruct df as [cols rs]; simpl.
  assert (Hid : filter (in_routes None) rs = rs).
  { apply filter_all, Forall_forall. by intros. }
  case_decide as Hc; [|by rewrite Hid].
  destruct route_filter as [|v vs]; [by rewrite Hid|].
  rewrite getitem_Ok by done. simpl. unfold loc_mask, isin; simpl.
  rewrite <- list_fmap_compose. rewrite bool_index_fmap.
  do 2 f_equal. apply list_filter_iff. intros r. simpl.
  by rewrite bool_decide_spec.
Qed.

Lemma apply_filters_spec df date_range route_filter :
  datetime_column df "assign_date" →
  apply_filters df date_range route_filter
  = Ok {| columns := columns df;
          rows := filter (kept_row (active_dates df date_range)
                            (active_routes df route_filter)) (rows df) |}.
Proof.
  intros Hdt. unfold apply_filters. rewrite date_filter_spec by done. simpl.
  rewrite route_filter_step_spec. simpl. f_equal. f_equal.
  unfold active_routes at 1; simpl. fold (active_routes df route_filter).
  rewrite list_filter_filter. apply list_filter_iff. intros r.
  unfold kept_row. tauto.
Qed.

(** C2: the filter keeps exactly the rows that pass the active date
    filter (a timestamp within the inclusive bounds, hence not null) and
    the active route filter (the route among the selected ones); a row
    whose date is null is dropped whenever a date filter is active. *)
Theorem filter_keeps_iff df date_range route_filter :
  datetime_column df "assign_date" →
  ∃ df', apply_filters df date_range route_filter = Ok df'
    ∧ columns df' = columns df
    ∧ rows df' = filter (kept_row (active_dates df date_range)
                           (active_routes df route_filter)) (rows df)
    ∧ (∀ r, r ∈ rows df' ↔
         r ∈ rows df
         ∧ (active_dates df date_range = None
            ∨ ∃ start_date end_date t,
                active_dates df date_range = Some (start_date, end_date)
                ∧ at_label "assign_date" r = Timestamp t
                ∧ (start_date ≤ t ≤ end_date)%Z)
         ∧ (active_routes df route_filter = None
            ∨ at_label "route_name" r ∈ route_filter))
    ∧ (∀ r, is_Some (active_dates df date_range) →
         at_label "assign_date" r = NaN → r ∉ rows df').
Proof.
  intros Hdt. eexists. split; [by apply apply_filters_spec|]. simpl.
  split; [done|]. split; [done|]. split.
  - intros r. rewrite list_elem_of_filter. unfold kept_row, in_dates, in_routes.
    split.
    + intros [[Hd Hr] Hin]. split; [done|]. split.
      * destruct (active_dates df date_range) as [[s e]|]; [|by left].
        right. destruct (at_label "assign_date" r) eqn:E; try done.
        by exists s, e, t.
      * unfold active_routes in *. case_decide; [|by left].
        destruct route_filter; [by left|by right].
    + intros (Hin & Hd & Hr). split; [|done]. split.
      * destruct Hd as [->|(s & e & t & -> & -> & ?)]; done.
      * destruct Hr as [->|Hr]; [done|].
        unfold active_routes. case_decide; [|done].
        by destruct route_filter.
  - intros r [[s e] Hs] Hna. rewrite list_elem_of_filter.
    unfold kept_row, in_dates. rewrite Hs, Hna. tauto.
Qed.

(** C8: filtering the filtered table again, with the same selection,
    gives the filtered table back. *)
Theorem filter_idempotent df date_range route_filter :
  datetime_column df "assign_date" →
  ∃ df', apply_filters df date_range route_filter = Ok df'
    ∧ apply_filters df' date_range route_filter = Ok df'.
Proof.
  intros Hdt. eexists. split; [by apply apply_filters_spec|].
  rewrite apply_filters_spec.
  - simpl. do 2 f_equal.
    unfold active_dates, active_routes; simpl.
    fold (active_dates df date_range). fold (active_routes df route_filter).
    rewrite list_filter_filter. apply list_filter_iff. tauto.
  - unfold datetime_column in *; simpl. intros Hc.
    apply Forall_forall. intros r [_ Hr]%list_elem_of_filter.
    specialize (Hdt Hc). rewrite Forall_forall in Hdt. auto.
Qed.

(** C10: with the route column there and nothing selected, the route
    filter is not applied: the result is that of the date filter alone. *)
Theorem empty_selection_keeps_all_routes df date_range :
  "route_name" ∈ columns df →
  datetime_column df "assign_date" →
  route_filter_step df [] = Ok df
  ∧ ∃ df', apply_filters df date_range [] = Ok df'
      ∧ date_filter df date_range = Ok df'
      ∧ rows df' = filter (in_dates (active_dates df date_range)) (rows df).
Proof.
  intros Hc Hdt. split.
  - unfold route_filter_step. by rewrite decide_True.
  - eexists. split; [|split; [by apply date_filter_spec|done]].
    unfold apply_filters. rewrite date_filter_spec by done. simpl.
    unfold route_filter_step. simpl. by rewrite decide_True.
Qed.

(** ** Sums and means *)

Lemma series_sum_numeric (s : Series) :
  Forall (λ c, is_numeric c) s → series_sum s = Ok (total (number_of <$> s)).
Proof.
  induction 1 as [|c s Hc _ IH]; [done|].
  rewrite fmap_cons. unfold total in *. cbn [foldr].
  destruct c; try done; cbn [series_sum number_of]; rewrite IH.
  - by rewrite Qcplus_0_l.
  - done.
Qed.

Lemma column_sum (l : list (gmap string cell)) c :
  Forall (λ r, is_numeric (at_label c r)) l →
  series_sum (at_label c <$> l) = Ok (column_total c l).
Proof.
  intros Hn. rewrite series_sum_numeric.
  - unfold column_total. by rewrite <- list_fmap_compose.
  - by apply Forall_fmap.
Qed.

Lemma is_number_numeric (l : list (gmap string cell)) c :
  Forall (λ r, is_number (at_label c r)) l →
  Forall (λ r, is_numeric (at_label c r)) l.
Proof.
  intros H. eapply Forall_impl; [exact H|].
  intros r. simpl. by destruct (at_label c r).
Qed.

Lemma filled_numeric df c : filled_column df c → numeric_column df c.
Proof. intros [_ H] _. by apply is_number_numeric. Qed.

Lemma series_count_filled (l : list (gmap string cell)) c :
  Forall (λ r, is_number (at_label c r)) l →
  series_count (at_label c <$> l) = length l.
Proof.
  intros H. unfold series_count, dropna.
  rewrite filter_all, length_fmap; [done|].
  apply Forall_fmap. eapply Forall_impl; [exact H|].
  intros r. simpl. by destruct (at_label c r).
Qed.

(** C6: the two percentages are the shares of the success and fail
    totals in their sum, times 100; when that sum is 0 both are 0. *)
Theorem delivery_percentages df :
  "success_count" ∈ columns df → "fail_count" ∈ columns df →
  numeric_column df "success_count" → numeric_column df "fail_count" →
  ∃ v, delivery_performance df = Ok (Some v)
    ∧ total_success v = column_total "success_count" (rows df)
    ∧ total_fail v = column_total "fail_count" (rows df)
    ∧ ((total_success v + total_fail v)%Qc ≠ 0%Qc →
         success_pct v
         = (total_success v / (total_success v + total_fail v) * Qc_of_nat 100)%Qc
         ∧ fail_pct v
           = (total_fail v / (total_success v + total_fail v) * Qc_of_nat 100)%Qc)
    ∧ ((total_success v + total_fail v)%Qc = 0%Qc →
         success_pct v = 0%Qc ∧ fail_pct v = 0%Qc).
Proof.
  intros Hs Hf Hns Hnf. unfold delivery_performance.
  rewrite decide_True by done.
  rewrite !getitem_Ok by done.
  rewrite bind_Ok, column_sum, bind_Ok, bind_Ok, column_sum, bind_Ok by auto.
  eexists. split; [done|]. simpl. split; [done|]. split; [done|].
  split; intros H0; [by rewrite !decide_False|by rewrite !decide_True].
Qed.

Lemma cost_analysis_Ok df :
  filled_column df "cost_sum" → filled_column df "total_cost" →
  filled_column df "additional_cost" →
  cost_analysis df
  = Ok {| total_cost_sum := column_total "cost_sum" (rows df);
          avg_cost_job :=
            match rows df with
            | [] => NaN
            | _ :: _ => Num (column_total "cost_sum" (rows df)
                             / Qc_of_nat (length (rows df)))%Qc
            end;
          base_cost := column_total "total_cost" (rows df);
          additional_cost_value := column_total "additional_cost" (rows df) |}.
Proof.
  intros Hcs Htc Hac. unfold cost_analysis, series_mean.
  destruct Hcs as [Hcs Fcs], Htc as [Htc Ftc], Hac as [Hac Fac].
  rewrite !getitem_Ok by done.
  repeat (rewrite ?bind_Ok, ?column_sum by by apply is_number_numeric).
  rewrite series_count_filled by done.
  by destruct (rows df).
Qed.

(** C9: the total is the sum of [cost_sum] over the rows, the average
    is that sum divided by the number of rows (not of jobs), the two
    parts are the sums of [total_cost] and [additional_cost]. *)
Theorem cost_analysis_sums df :
  filled_column df "cost_sum" → filled_column df "total_cost" →
  filled_column df "additional_cost" →
  cost_analysis df
  = Ok {| total_cost_sum := column_total "cost_sum" (rows df);
          avg_cost_job :=
            match rows df with
            | [] => NaN
            | _ :: _ => Num (column_total "cost_sum" (rows df)
                             / Qc_of_nat (length (rows df)))%Qc
            end;
          base_cost := column_total "total_cost" (rows df);
          additional_cost_value := column_total "additional_cost" (rows df) |}.
Proof. apply cost_analysis_Ok. Qed.

(** C4, as amended: on a frame without rows the summary is all zero,
    the trend is empty, the cost total and its two parts are zero, and
    the average cost is NaN. *)
Theorem empty_frame_aggregates df :
  rows df = [] →
  "job_id" ∈ columns df → "num_deliveries" ∈ columns df →
  "num_items" ∈ columns df → "cost_sum" ∈ columns df →
  "total_cost" ∈ columns df → "additional_cost" ∈ columns df →
  operational_summary df = Ok (mkSummary 0 0%Qc 0%Qc)
  ∧ ("assign_date" ∈ columns df → trend_df df = Ok [])
  ∧ cost_analysis df = Ok (mkCostView 0%Qc NaN 0%Qc 0%Qc).
Proof.
  intros Hr Hj Hd Hi Hcs Htc Hac. split_and!.
  - unfold operational_summary. rewrite !getitem_Ok by done. by rewrite Hr.
  - intros Ha. unfold trend_df. rewrite !getitem_Ok by done. by rewrite Hr.
  - unfold cost_analysis. rewrite !getitem_Ok by done. by rewrite Hr.
Qed.

(** ** Groups *)

Lemma zip_fmap_rows {A B C} (f : A → B) (g : A → C) (l : list A) :
  zip (f <$> l) (g <$> l) = (λ x, (f x, g x)) <$> l.
Proof.
  induction l as [|x l IH]; [done|].
  rewrite !fmap_cons. cbn [zip zip_with]. by rewrite <- IH.
Qed.

Lemma group_values_rows (f g : gmap string cell → cell) rs k :
  group_values (f <$> rs) (g <$> rs) k = g <$> filter (λ r, f r = k) rs.
Proof.
  unfold group_values. rewrite zip_fmap_rows.
  induction rs as [|r rs IH]; [done|].
  rewrite fmap_cons, !filter_cons. cbn [fst].
  destruct (decide (f r = k)); [rewrite !fmap_cons; cbn [snd]|]; by rewrite IH.
Qed.

Lemma elem_of_dropna (s : Series) c : c ∈ dropna s ↔ c ≠ NaN ∧ c ∈ s.
Proof. unfold dropna. by rewrite list_elem_of_filter. Qed.

Lemma elem_of_group_keys (s : Series) k :
  k ∈ group_keys s ↔ k ≠ NaN ∧ k ∈ s.
Proof.
  unfold group_keys. rewrite merge_sort_Permutation, elem_of_remove_dups.
  apply elem_of_dropna.
Qed.

Lemma NoDup_group_keys (s : Series) : NoDup (group_keys s).
Proof.
  unfold group_keys. rewrite merge_sort_Permutation. apply NoDup_remove_dups.
Qed.

Lemma elem_of_route_jobs rs k x :
  x ∈ route_jobs rs k ↔
  x ≠ NaN ∧ ∃ r, r ∈ rs ∧ at_label "route_name" r = k ∧ at_label "job_id" r = x.
Proof.
  unfold route_jobs, route_rows.
  rewrite elem_of_remove_dups, elem_of_dropna, list_elem_of_fmap.
  split.
  - intros (Hna & r & -> & [Hk Hr]%list_elem_of_filter).
    split; [done|]. by exists r.
  - intros (Hna & r & Hr & Hk & <-). split; [done|].
    exists r. split; [done|]. by apply list_elem_of_filter.
Qed.

Lemma sum_list_length_bind {A B} (f : A → list B) (l : list A) :
  sum_list ((λ x, length (f x)) <$> l) = length (l ≫= f).
Proof.
  induction l as [|x l IH]; [done|].
  rewrite fmap_cons. csimpl. rewrite length_app. by rewrite <- IH.
Qed.

Lemma route_jobs_included rs x :
  x ∈ group_keys (at_label "route_name" <$> rs) ≫= route_jobs rs →
  x ∈ remove_dups (dropna (at_label "job_id" <$> rs)).
Proof.
  rewrite list_elem_of_bind. intros (k & Hx & _).
  apply elem_of_route_jobs in Hx as (Hna & r & Hr & _ & <-).
  rewrite elem_of_remove_dups, elem_of_dropna. split; [done|].
  by apply list_elem_of_fmap_2.
Qed.

Lemma route_jobs_NoDup df :
  one_route_per_job df →
  NoDup (group_keys (at_label "route_name" <$> rows df) ≫= route_jobs (rows df)).
Proof.
  intros H1. unfold one_route_per_job in H1.
  apply NoDup_bind; [|intros; apply NoDup_remove_dups|apply NoDup_group_keys].
  intros k1 k2 x Hk1 Hk2 Hx1 Hx2.
  apply elem_of_group_keys in Hk1 as [Hn1 _], Hk2 as [Hn2 _].
  apply elem_of_route_jobs in Hx1 as (Hx & r1 & Hr1 & <- & E1).
  apply elem_of_route_jobs in Hx2 as (_ & r2 & Hr2 & <- & E2).
  rewrite Forall_forall in H1. specialize (H1 r1 Hr1).
  rewrite Forall_forall in H1. apply (H1 r2 Hr2); congruence.
Qed.

(** The distinct job ids counted route by route, against those counted
    over the whole frame. *)
Lemma route_jobs_count df :
  one_route_per_job df →
  (sum_list ((λ k, length (route_jobs (rows df) k))
               <$> group_keys (at_label "route_name" <$> rows df))
   ≤ nunique (at_label "job_id" <$> rows df))%nat
  ∧ (all_routed df →
     sum_list ((λ k, length (route_jobs (rows df) k))
                 <$> group_keys (at_label "route_name" <$> rows df))
     = nunique (at_label "job_id" <$> rows df)).
Proof.
  intros H1. rewrite sum_list_length_bind. unfold nunique. split.
  - apply submseteq_length, NoDup_submseteq; [by apply route_jobs_NoDup|].
    apply route_jobs_included.
  - intros Hall. apply Permutation_length, NoDup_Permutation;
      [by apply route_jobs_NoDup|apply NoDup_remove_dups|].
    intros x. split; [apply route_jobs_included|].
    rewrite elem_of_remove_dups, elem_of_dropna, list_elem_of_fmap.
    intros (Hna & r & -> & Hr). apply list_elem_of_bind.
    exists (at_label "route_name" r). split.
    + apply elem_of_route_jobs. split; [done|]. by exists r.
    + apply elem_of_group_keys. split.
      * unfold all_routed in Hall. rewrite Forall_forall in Hall. by apply Hall.
      * by apply list_elem_of_fmap_2.
Qed.

(** ** Normalisation *)

Lemma at_label_insert c v (r : gmap string cell) : at_label c (<[c := v]> r) = v.
Proof. unfold at_label. by rewrite lookup_insert_eq. Qed.

Lemma at_label_insert_ne c c' v (r : gmap string cell) :
  c' ≠ c → at_label c (<[c' := v]> r) = at_label c r.
Proof. intros. unfold at_label. by rewrite lookup_insert_ne. Qed.

Lemma setitem_fmap {A} cols (f : A → gmap string cell) (h : A → cell) (l : list A) c :
  setitem {| columns := cols; rows := f <$> l |} c (h <$> l)
  = {| columns := if decide (c ∈ cols) then cols else cols ++ [c];
       rows := (λ x, <[c := h x]> (f x)) <$> l |}.
Proof.
  unfold setitem. cbn [columns rows]. f_equal.
  by rewrite zip_with_fmap_l, zip_with_fmap_r, zip_with_diag.
Qed.

Lemma getitem_fmap {A} cols (f : A → gmap string cell) (l : list A) c :
  c ∈ cols →
  getitem {| columns := cols; rows := f <$> l |} c
  = Ok ((λ x, at_label c (f x)) <$> l).
Proof.
  intros Hc. rewrite getitem_Ok by done. cbn [rows].
  by rewrite <- list_fmap_compose.
Qed.

Lemma result_map_fmap_Ok {A B C} (f : B → result C) (g : A → B) (h : A → C)
    (l : list A) :
  (∀ x, f (g x) = Ok (h x)) → result_map f (g <$> l) = Ok (h <$> l).
Proof.
  intros H. induction l as [|x l IH]; [done|].
  rewrite !fmap_cons. cbn [result_map]. by rewrite H, IH.
Qed.

Section Normalize.

Context `{Parsers}.

Lemma fillna0_to_numeric_cell c :
  (if isna (to_numeric_cell c) then Num 0%Qc else to_numeric_cell c)
  = Num (number_of (to_numeric_cell c)).
Proof.
  destruct c as [|q|x|t]; simpl; try done.
  - by destruct (parse_number x).
  - by destruct (number_of_datetime t).
Qed.

Lemma is_datetime_to_datetime_cell c : is_datetime (to_datetime_cell c).
Proof.
  destruct c as [|q|x|t]; simpl; try done.
  - by destruct (datetime_of_number q).
  - by destruct (parse_datetime x).
Qed.

(** The cost step of lines 40-41 on a frame that has the column. *)
Lemma fill_cost_Ok {A} cols (f : A → gmap string cell) (l : list A) c :
  c ∈ cols →
  py_fillna0 (to_numeric (df_get {| columns := cols; rows := f <$> l |} c 0))
  = Ok ((λ x, Num (number_of (to_numeric_cell (at_label c (f x))))) <$> l).
Proof.
  intros Hc. unfold df_get. rewrite getitem_fmap by done.
  cbn [to_numeric py_fillna0]. unfold fillna0.
  rewrite <- !list_fmap_compose. f_equal.
  apply list_fmap_ext. intros _ r _. apply fillna0_to_numeric_cell.
Qed.

(** The same step on a frame that lacks the column. *)
Lemma fill_cost_missing df c :
  c ∉ columns df → py_fillna0 (to_numeric (df_get df c 0)) = Raise AttributeError.
Proof. intros Hc. unfold df_get. by rewrite getitem_missing. Qed.

(** Line 37, guarded by line 36. *)
Lemma convert_date_Ok cols rs :
  (if decide ("assign_date" ∈ cols)
   then s ← getitem {| columns := cols; rows := rs |} "assign_date";
        Ok (setitem {| columns := cols; rows := rs |} "assign_date" (to_datetime s))
   else Ok {| columns := cols; rows := rs |})
  = Ok {| columns := cols;
          rows := (λ r, if decide ("assign_date" ∈ cols)
                        then <["assign_date" := to_datetime_cell (at_label "assign_date" r)]> r
                        else r) <$> rs |}.
Proof.
  case_decide as Ha; [|by rewrite list_fmap_id].
  rewrite getitem_Ok, bind_Ok by done. cbn [rows]. unfold to_datetime.
  rewrite <- list_fmap_compose.
  rewrite <- (list_fmap_id rs) at 1. rewrite setitem_fmap.
  by rewrite decide_True.
Qed.

Lemma normalize_Ok df_raw :
  let df0 := renamed df_raw in
  "total_cost" ∈ columns df0 → "additional_cost" ∈ columns df0 →
  normalize df_raw
  = Ok {| columns := if decide ("cost_sum" ∈ columns df0) then columns df0
                     else columns df0 ++ ["cost_sum"];
          rows := normalized_row (columns df0) <$> rows df0 |}.
Proof.
  intros df0. unfold normalize. fold df0. clearbody df0.
  destruct df0 as [cols rs]. cbn [columns rows]. intros Htc Hac.
  rewrite convert_date_Ok, bind_Ok.
  rewrite fill_cost_Ok, bind_Ok by done.
  rewrite setitem_fmap, decide_True by done.
  rewrite fill_cost_Ok, bind_Ok by done.
  rewrite setitem_fmap, decide_True by done.
  rewrite !getitem_fmap, !bind_Ok by done.
  unfold series_add. rewrite zip_fmap_rows.
  rewrite (result_map_fmap_Ok _ _
    (λ r, at_label "cost_sum" (normalized_row cols r))); cycle 1.
  { intros r. cbn [fst snd]. unfold normalized_row.
    rewrite (at_label_insert "cost_sum").
    rewrite (at_label_insert "additional_cost").
    rewrite (at_label_insert_ne "total_cost" "additional_cost") by done.
    by rewrite (at_label_insert "total_cost"). }
  rewrite bind_Ok, setitem_fmap. do 2 f_equal.
  apply list_fmap_ext. intros _ r _. unfold normalized_row.
  by rewrite (at_label_insert "cost_sum").
Qed.

End Normalize.

(** ** The views *)

Lemma Forall_filter_rows (P Q : gmap string cell → Prop) `{∀ r, Decision (Q r)} rs :
  Forall P rs → Forall P (filter Q rs).
Proof.
  rewrite !Forall_forall. intros HP r [_ Hr]%list_elem_of_filter. auto.
Qed.

Lemma series_mean_numeric (s : Series) :
  Forall (λ c, is_numeric c) s → series_mean s = Ok (mean_cell s).
Proof.
  intros Hs. unfold series_mean. by rewrite series_sum_numeric, bind_Ok.
Qed.

Lemma operational_summary_Ok df :
  "job_id" ∈ columns df → "num_deliveries" ∈ columns df →
  "num_items" ∈ columns df →
  numeric_column df "num_deliveries" → numeric_column df "num_items" →
  operational_summary df
  = Ok (mkSummary (nunique (at_label "job_id" <$> rows df))
          (column_total "num_deliveries" (rows df))
          (column_total "num_items" (rows df))).
Proof.
  intros Hj Hd Hi Hnd Hni. unfold operational_summary.
  rewrite !getitem_Ok by done.
  by repeat (rewrite ?bind_Ok, ?column_sum by auto).
Qed.

Lemma trend_df_Ok df :
  "assign_date" ∈ columns df → "job_id" ∈ columns df →
  "num_deliveries" ∈ columns df → "num_items" ∈ columns df →
  numeric_column df "num_deliveries" → numeric_column df "num_items" →
  trend_df df
  = Ok (trend_row_of (rows df) <$> group_keys (at_label "assign_date" <$> rows df)).
Proof.
  intros Ha Hj Hd Hi Hnd Hni. unfold trend_df.
  rewrite !getitem_Ok, !bind_Ok by done.
  apply result_map_Ok, Forall_forall. intros k _.
  rewrite !group_values_rows.
  by repeat (rewrite ?bind_Ok, ?column_sum by (apply Forall_filter_rows; auto)).
Qed.

Lemma route_groups_Ok df :
  "route_name" ∈ columns df → "job_id" ∈ columns df →
  "cost_sum" ∈ columns df → numeric_column df "cost_sum" →
  route_groups df
  = Ok (route_row_of (rows df) <$> group_keys (at_label "route_name" <$> rows df)).
Proof.
  intros Hr Hj Hc Hnc. unfold route_groups.
  rewrite !getitem_Ok, !bind_Ok by done.
  apply result_map_Ok, Forall_forall. intros k _.
  rewrite !group_values_rows. fold (route_rows (rows df) k).
  rewrite series_mean_numeric by (apply Forall_fmap, Forall_filter_rows; auto).
  by repeat (rewrite ?bind_Ok, ?column_sum by (apply Forall_filter_rows; auto)).
Qed.

Lemma routes_cost_Ok df :
  "route_name" ∈ columns df → "cost_sum" ∈ columns df →
  numeric_column df "cost_sum" →
  succeeds (routes_cost df).
Proof.
  intros Hr Hc Hnc. unfold routes_cost.
  rewrite !getitem_Ok, !bind_Ok by done.
  rewrite (result_map_Ok _ (λ k, (k, column_total "cost_sum" (route_rows (rows df) k)))).
  - rewrite bind_Ok. by eexists.
  - apply Forall_forall. intros k _. rewrite group_values_rows.
    fold (route_rows (rows df) k).
    by rewrite column_sum, bind_Ok by (apply Forall_filter_rows; auto).
Qed.


Lemma group_keys_nonempty df :
  has_routed_row df → group_keys (at_label "route_name" <$> rows df) ≠ [].
Proof.
  intros (r & Hr & Hna)%Exists_exists E.
  assert (Hk : at_label "route_name" r ∈ group_keys (at_label "route_name" <$> rows df)).
  { apply elem_of_group_keys. split; [done|]. by apply list_elem_of_fmap_2. }
  rewrite E in Hk. by apply elem_of_nil in Hk.
Qed.


(** The route views of a frame whose rows have no route: line 136 reads
    the first row of an empty ranking. *)
Lemma route_performance_no_group df :
  "route_name" ∈ columns df → "job_id" ∈ columns df →
  "cost_sum" ∈ columns df → numeric_column df "cost_sum" →
  Forall (λ r, at_label "route_name" r = NaN) (rows df) →
  route_performance df = Raise IndexError.
Proof.
  intros Hr Hj Hc Hnc Hall. unfold route_performance.
  rewrite route_groups_Ok, bind_Ok by done.
  assert (E : group_keys (at_label "route_name" <$> rows df) = []).
  { destruct (group_keys _) as [|k ks] eqn:E; [done|].
    assert (Hk : k ∈ group_keys (at_label "route_name" <$> rows df))
      by (rewrite E; left).
    apply elem_of_group_keys in Hk as [Hna (r & -> & Hin)%list_elem_of_fmap].
    rewrite Forall_forall in Hall. by destruct Hna; apply Hall. }
  by rewrite E.
Qed.



(** ** The normalised frame *)

Section Normalized.

Context `{Parsers}.

Lemma at_label_normalized_row c cols r :
  c ≠ "assign_date" → c ≠ "total_cost" → c ≠ "additional_cost" →
  c ≠ "cost_sum" →
  at_label c (normalized_row cols r) = at_label c r.
Proof.
  intros. unfold normalized_row.
  rewrite !at_label_insert_ne by done.
  case_decide; [by rewrite at_label_insert_ne|done].
Qed.

Lemma normalized_row_costs cols r :
  ∃ x y, at_label "total_cost" (normalized_row cols r) = Num x
    ∧ at_label "additional_cost" (normalized_row cols r) = Num y
    ∧ at_label "cost_sum" (normalized_row cols r) = Num (x + y)%Qc.
Proof.
  unfold normalized_row. eexists _, _. split_and!.
  - rewrite !at_label_insert_ne by done. apply at_label_insert.
  - rewrite at_label_insert_ne by done. apply at_label_insert.
  - apply at_label_insert.
Qed.

Lemma normalized_row_date cols r :
  "assign_date" ∈ cols →
  is_datetime (at_label "assign_date" (normalized_row cols r)).
Proof.
  intros Ha. unfold normalized_row.
  rewrite !at_label_insert_ne by done.
  rewrite decide_True, at_label_insert by done.
  apply is_datetime_to_datetime_cell.
Qed.

(** What normalisation establishes when both cost columns are there:
    the rows are kept one for one, and on each of them [cost_sum] is
    the sum of the two filled cost cells. *)
Lemma normalize_cost_sum df_raw :
  "total_cost" ∈ columns (renamed df_raw) →
  "additional_cost" ∈ columns (renamed df_raw) →
  ∃ df, normalize df_raw = Ok df
    ∧ length (rows df) = length (rows df_raw)
    ∧ Forall (λ r, ∃ x y, at_label "total_cost" r = Num x
                ∧ at_label "additional_cost" r = Num y
                ∧ at_label "cost_sum" r = Num (x + y)%Qc) (rows df).
Proof.
  intros Htc Hac. eexists. split; [by apply normalize_Ok|].
  cbn [rows]. split.
  - unfold renamed, rename. cbn [rows]. by rewrite !length_fmap.
  - apply Forall_fmap, Forall_forall. intros r _. apply normalized_row_costs.
Qed.

Lemma normalize_missing df_raw :
  "total_cost" ∉ columns (renamed df_raw)
  ∨ "additional_cost" ∉ columns (renamed df_raw) →
  normalize df_raw = Raise AttributeError.
Proof.
  unfold normalize. destruct (renamed df_raw) as [cols rs]. cbn [columns].
  intros Hmiss. rewrite convert_date_Ok, bind_Ok.
  destruct (decide ("total_cost" ∈ cols)) as [Htc|Htc].
  - destruct Hmiss as [?|Hac]; [done|].
    rewrite fill_cost_Ok, bind_Ok by done.
    rewrite setitem_fmap, decide_True by done.
    by rewrite fill_cost_missing.
  - by rewrite fill_cost_missing.
Qed.

End Normalized.

(** C1: when a cost column is absent after the renaming, lines 40-41
    raise AttributeError ([pd.to_numeric] hands the default 0 back and an
    int has no [fillna]): no record is produced, so none has a
    [cost_sum]. *)
Theorem missing_cost_column_raises `{Parsers} df_raw :
  "total_cost" ∉ columns (renamed df_raw)
  ∨ "additional_cost" ∉ columns (renamed df_raw) →
  normalize df_raw = Raise AttributeError.
Proof. apply normalize_missing. Qed.

Lemma missing_cost_column_raises_witness :
  ("total_cost" ∉ columns (renamed upload_without_costs)
   ∨ "additional_cost" ∉ columns (renamed upload_without_costs))
  ∧ normalize (H := no_parsers) upload_without_costs = Raise AttributeError.
Proof.
  assert (Hm : "total_cost" ∉ columns (renamed upload_without_costs)
               ∨ "additional_cost" ∉ columns (renamed upload_without_costs)).
  { left. by_evaluation. }
  split; [exact Hm|].
  exact (missing_cost_column_raises (H := no_parsers) upload_without_costs Hm).
Defined.

(** C7: on an upload without the cost columns normalisation raises, so
    that no canonical table of the same row count comes out of it. *)
Theorem no_canonical_table_without_costs `{Parsers} :
  normalize upload_without_costs = Raise AttributeError
  ∧ ¬ ∃ df, normalize upload_without_costs = Ok df
        ∧ length (rows df) = length (rows upload_without_costs).
Proof.
  assert (E : normalize upload_without_costs = Raise AttributeError).
  { apply normalize_missing. left. by_evaluation. }
  split; [done|]. intros (df & Hdf & _). by rewrite E in Hdf.
Qed.

(** C5, as amended: when no job id is found under two routes, the job
    counts of the routes add up to at most the number of jobs of the
    frame, and to exactly that number when every row has a route. *)
Theorem route_jobs_within_total_jobs df :
  "route_name" ∈ columns df → "job_id" ∈ columns df →
  "num_deliveries" ∈ columns df → "num_items" ∈ columns df →
  "cost_sum" ∈ columns df → numeric_column df "cost_sum" →
  numeric_column df "num_deliveries" → numeric_column df "num_items" →
  one_route_per_job df →
  ∃ rp s, route_groups df = Ok rp ∧ operational_summary df = Ok s
    ∧ (sum_list (rp_total_jobs <$> rp) ≤ total_jobs s)%nat
    ∧ (all_routed df → sum_list (rp_total_jobs <$> rp) = total_jobs s).
Proof.
  intros Hr Hj Hd Hi Hc Hnc Hnd Hni Hone.
  eexists _, _. split; [by apply route_groups_Ok|].
  split; [by apply operational_summary_Ok|].
  rewrite <- list_fmap_compose. cbn [total_jobs].
  apply (route_jobs_count df Hone).
Qed.

(** ** The whole script *)

Section Whole.

Context `{Parsers}.

Lemma elem_of_normalized_columns (c : string) (cols : list string) :
  c ∈ (if decide ("cost_sum" ∈ cols) then cols else (cols ++ ["cost_sum"])%list)
  ↔ c ∈ cols ∨ c = "cost_sum".
Proof.
  case_decide as Hcs.
  - split; [by left|]. by intros [?| ->].
  - rewrite elem_of_app, list_elem_of_singleton. tauto.
Qed.

Lemma normalized_numeric (cols : list string) rs (K : gmap string cell → Prop)
    `{∀ r, Decision (K r)} c :
  c ≠ "assign_date" → c ≠ "total_cost" → c ≠ "additional_cost" →
  c ≠ "cost_sum" →
  numeric_column {| columns := cols; rows := rs |} c →
  numeric_column
    {| columns := if decide ("cost_sum" ∈ cols) then cols else cols ++ ["cost_sum"];
       rows := filter K (normalized_row cols <$> rs) |} c.
Proof.
  intros ???? Hn. unfold numeric_column in *. cbn [columns rows] in *.
  intros [Hc|?]%elem_of_normalized_columns; [|done].
  apply Forall_filter_rows, Forall_fmap.
  eapply Forall_impl; [by apply Hn|].
  intros r Hr. cbn. by rewrite at_label_normalized_row.
Qed.


Lemma normalized_datetime (cols : list string) rs :
  datetime_column
    {| columns := if decide ("cost_sum" ∈ cols) then cols else cols ++ ["cost_sum"];
       rows := normalized_row cols <$> rs |} "assign_date".
Proof.
  unfold datetime_column. cbn [columns rows].
  intros [Ha|?]%elem_of_normalized_columns; [|done].
  apply Forall_fmap, Forall_forall. intros r _. by apply normalized_row_date.
Qed.

Lemma filtered_Ok df_raw date_range route_filter :
  let df0 := renamed df_raw in
  let cols := if decide ("cost_sum" ∈ columns df0) then columns df0
              else (columns df0 ++ ["cost_sum"])%list in
  "total_cost" ∈ columns df0 → "additional_cost" ∈ columns df0 →
  ∃ K (HK : ∀ r, Decision (K r)),
    filtered df_raw date_range route_filter
    = Ok {| columns := cols;
            rows := filter K (normalized_row (columns df0) <$> rows df0) |}.
Proof.
  intros df0 cols Htc Hac. unfold filtered.
  rewrite normalize_Ok, bind_Ok by done.
  rewrite apply_filters_spec by apply normalized_datetime.
  by eexists _, _.
Qed.


Lemma app_missing_required df_raw date_range route_filter :
  "total_cost" ∈ columns (renamed df_raw) →
  "additional_cost" ∈ columns (renamed df_raw) →
  ("job_id" ∉ columns (renamed df_raw) →
   app df_raw date_range route_filter = Raise (KeyError "job_id"))
  ∧ ("job_id" ∈ columns (renamed df_raw) →
     "num_deliveries" ∉ columns (renamed df_raw) →
     app df_raw date_range route_filter = Raise (KeyError "num_deliveries"))
  ∧ ("job_id" ∈ columns (renamed df_raw) →
     "num_deliveries" ∈ columns (renamed df_raw) →
     numeric_column (renamed df_raw) "num_deliveries" →
     "num_items" ∉ columns (renamed df_raw) →
     app df_raw date_range route_filter = Raise (KeyError "num_items")).
Proof.
  intros Htc Hac.
  destruct (filtered_Ok df_raw date_range route_filter Htc Hac) as (K & HK & E).
  unfold app. rewrite E, bind_Ok. clear E.
  destruct (renamed df_raw) as [cols rs]. cbn [columns rows] in *.
  unfold render, operational_summary. split_and!.
  - intros Hj. rewrite (getitem_missing _ "job_id"); [reflexivity|].
    cbn [columns]. rewrite elem_of_normalized_columns. by intros [?|?].
  - intros Hj Hd. rewrite (getitem_Ok _ "job_id"), bind_Ok
      by (cbn [columns]; apply elem_of_normalized_columns; by left).
    rewrite (getitem_missing _ "num_deliveries"); [reflexivity|].
    cbn [columns]. rewrite elem_of_normalized_columns. by intros [?|?].
  - intros Hj Hd Hnd Hi.
    assert (Hnd' := normalized_numeric cols rs K "num_deliveries"
                      ltac:(done) ltac:(done) ltac:(done) ltac:(done) Hnd).
    assert (Hd' : "num_deliveries" ∈
              (if decide ("cost_sum" ∈ cols) then cols
               else (cols ++ ["cost_sum"])%list))
      by (apply elem_of_normalized_columns; by left).
    rewrite (getitem_Ok _ "job_id"), bind_Ok
      by (cbn [columns]; apply elem_of_normalized_columns; by left).
    rewrite (getitem_Ok _ "num_deliveries"), bind_Ok by done.
    rewrite column_sum, bind_Ok by (by apply Hnd').
    rewrite (getitem_missing _ "num_items"); [reflexivity|].
    cbn [columns]. rewrite elem_of_normalized_columns. by intros [?|?].
Qed.

End Whole.


(** ** The theorems on the sample tables *)

Lemma sample_frame_dates : datetime_column sample_frame "assign_date".
Proof. intros _. by_evaluation. Qed.

Lemma filter_keeps_iff_witness :
  datetime_column sample_frame "assign_date"
  ∧ ∃ df', apply_filters sample_frame (DateTuple [19724; 19724]%Z) [] = Ok df'
      ∧ rows df' = [canonical_row (day 19724) (num 2) (Str "A") 250 50 1 1].
Proof.
  assert (Hd : datetime_column sample_frame "assign_date")
    by (intros _; by_evaluation).
  split; [exact Hd|].
  destruct (filter_keeps_iff sample_frame (DateTuple [19724; 19724]%Z) [] Hd)
    as (df' & E & _ & Hrows & _).
  exists df'. split; [exact E|]. rewrite Hrows. vm_compute. reflexivity.
Defined.

Lemma filter_idempotent_witness :
  datetime_column sample_frame "assign_date"
  ∧ ∃ df', apply_filters sample_frame (DateTuple [19723; 19724]%Z) [Str "A"] = Ok df'
      ∧ apply_filters df' (DateTuple [19723; 19724]%Z) [Str "A"] = Ok df'.
Proof.
  assert (Hd : datetime_column sample_frame "assign_date")
    by (intros _; by_evaluation).
  split; [exact Hd|].
  exact (filter_idempotent sample_frame (DateTuple [19723; 19724]%Z) [Str "A"] Hd).
Defined.

Lemma empty_selection_keeps_all_routes_witness :
  "route_name" ∈ columns sample_frame
  ∧ datetime_column sample_frame "assign_date"
  ∧ route_filter_step sample_frame [] = Ok sample_frame
  ∧ ∃ df', apply_filters sample_frame (DateValue 19723) [] = Ok df'
      ∧ date_filter sample_frame (DateValue 19723) = Ok df'
      ∧ rows df' = filter (in_dates (active_dates sample_frame (DateValue 19723)))
                     (rows sample_frame).
Proof.
  assert (Hr : "route_name" ∈ columns sample_frame) by by_evaluation.
  assert (Hd : datetime_column sample_frame "assign_date")
    by (intros _; by_evaluation).
  split; [exact Hr|]. split; [exact Hd|].
  exact (empty_selection_keeps_all_routes sample_frame (DateValue 19723) Hr Hd).
Defined.

Lemma delivery_percentages_witness :
  "success_count" ∈ columns sample_frame
  ∧ "fail_count" ∈ columns sample_frame
  ∧ numeric_column sample_frame "success_count"
  ∧ numeric_column sample_frame "fail_count"
  ∧ ∃ v, delivery_performance sample_frame = Ok (Some v)
      ∧ Num (success_pct v) = num 75 ∧ Num (fail_pct v) = num 25.
Proof.
  assert (Hs : "success_count" ∈ columns sample_frame) by by_evaluation.
  assert (Hf : "fail_count" ∈ columns sample_frame) by by_evaluation.
  assert (Hns : numeric_column sample_frame "success_count")
    by (intros _; by_evaluation).
  assert (Hnf : numeric_column sample_frame "fail_count")
    by (intros _; by_evaluation).
  split_and!; [exact Hs|exact Hf|exact Hns|exact Hnf|].
  destruct (delivery_percentages sample_frame Hs Hf Hns Hnf)
    as (v & E & Es & Ef & Hpct & _).
  exists v. split; [exact E|].
  rewrite Es, Ef in Hpct. destruct Hpct as [-> ->]; [by_evaluation|].
  split; unfold num; f_equal; apply Qc_is_canon; vm_compute; reflexivity.
Defined.

Lemma cost_analysis_sums_witness :
  filled_column sample_frame "cost_sum"
  ∧ filled_column sample_frame "total_cost"
  ∧ filled_column sample_frame "additional_cost"
  ∧ ∃ v, cost_analysis sample_frame = Ok v
      ∧ Num (total_cost_sum v) = num 450 ∧ avg_cost_job v = num 150
      ∧ Num (base_cost v) = num 400 ∧ Num (additional_cost_value v) = num 50.
Proof.
  assert (Hcs : filled_column sample_frame "cost_sum") by (split; by_evaluation).
  assert (Htc : filled_column sample_frame "total_cost") by (split; by_evaluation).
  assert (Hac : filled_column sample_frame "additional_cost")
    by (split; by_evaluation).
  split_and!; [exact Hcs|exact Htc|exact Hac|].
  eexists. split; [exact (cost_analysis_sums sample_frame Hcs Htc Hac)|].
  cbn [total_cost_sum avg_cost_job base_cost additional_cost_value].
  split_and!; unfold num; f_equal; apply Qc_is_canon; vm_compute; reflexivity.
Defined.

(** Against C4 as stated: on the frame without rows the average cost is
    NaN, not zero. *)
Lemma empty_frame_average_is_nan :
  ∃ v, cost_analysis empty_frame = Ok v
    ∧ avg_cost_job v = NaN ∧ avg_cost_job v ≠ Num 0%Qc.
Proof. eexists. split; [reflexivity|]. split; [reflexivity|]. discriminate. Qed.

(** The route views of the frame without rows raise. *)
Lemma empty_frame_routes_raise :
  route_performance empty_frame = Raise IndexError.
Proof. reflexivity. Qed.

Lemma empty_frame_aggregates_witness :
  rows empty_frame = []
  ∧ operational_summary empty_frame = Ok (mkSummary 0 0%Qc 0%Qc)
  ∧ ("assign_date" ∈ columns empty_frame → trend_df empty_frame = Ok [])
  ∧ cost_analysis empty_frame = Ok (mkCostView 0%Qc NaN 0%Qc 0%Qc).
Proof.
  split; [reflexivity|].
  apply (empty_frame_aggregates empty_frame); [reflexivity|by_evaluation..].
Defined.

(** Against C5 as stated: one job under two routes is counted once for
    each route and once in the summary. *)
Lemma shared_job_counted_twice :
  all_routed shared_job_frame
  ∧ ∃ rp s, route_groups shared_job_frame = Ok rp
      ∧ operational_summary shared_job_frame = Ok s
      ∧ sum_list (rp_total_jobs <$> rp) = 2%nat ∧ total_jobs s = 1%nat
      ∧ ¬ (sum_list (rp_total_jobs <$> rp) ≤ total_jobs s)%nat.
Proof.
  split; [by_evaluation|].
  eexists _, _. split; [vm_compute; reflexivity|].
  split; [vm_compute; reflexivity|].
  split; [reflexivity|]. split; [reflexivity|]. cbn. lia.
Qed.

Lemma route_jobs_within_total_jobs_witness :
  one_route_per_job sample_frame ∧ all_routed sample_frame
  ∧ ∃ rp s, route_groups sample_frame = Ok rp
      ∧ operational_summary sample_frame = Ok s
      ∧ (sum_list (rp_total_jobs <$> rp) ≤ total_jobs s)%nat
      ∧ sum_list (rp_total_jobs <$> rp) = total_jobs s.
Proof.
  assert (Hone : one_route_per_job sample_frame) by by_evaluation.
  assert (Hall : all_routed sample_frame) by by_evaluation.
  split; [exact Hone|]. split; [exact Hall|].
  destruct (route_jobs_within_total_jobs sample_frame) as (rp & s & E1 & E2 & Hle & Heq);
    [by_evaluation|by_evaluation|by_evaluation|by_evaluation|by_evaluation
    |intros _; by_evaluation|intros _; by_evaluation|intros _; by_evaluation
    |exact Hone|].
  exists rp, s. split; [exact E1|]. split; [exact E2|].
  split; [exact Hle|exact (Heq Hall)].
Defined.



(** ** Further properties of the normalisation *)

Section NormalizeMore.

Context `{Parsers}.

Lemma filled_cost_spec c : number_of (to_numeric_cell c) = filled_cost c.
Proof.
  destruct c as [|q|x|t]; simpl; try done.
  - by destruct (parse_number x).
  - by destruct (number_of_datetime t).
Qed.

Lemma normalized_row_total_cost cols r :
  at_label "total_cost" (normalized_row cols r)
  = Num (filled_cost (at_label "total_cost" r)).
Proof.
  unfold normalized_row. rewrite !at_label_insert_ne by done.
  rewrite at_label_insert, filled_cost_spec.
  case_decide; [by rewrite at_label_insert_ne|done].
Qed.

Lemma normalized_row_additional_cost cols r :
  at_label "additional_cost" (normalized_row cols r)
  = Num (filled_cost (at_label "additional_cost" r)).
Proof.
  unfold normalized_row. rewrite at_label_insert_ne by done.
  rewrite at_label_insert, filled_cost_spec.
  rewrite at_label_insert_ne by done.
  case_decide; [by rewrite at_label_insert_ne|done].
Qed.

Lemma normalized_row_assign_date cols r :
  "assign_date" ∈ cols →
  at_label "assign_date" (normalized_row cols r)
  = to_datetime_cell (at_label "assign_date" r).
Proof.
  intros Ha. unfold normalized_row. rewrite !at_label_insert_ne by done.
  by rewrite decide_True, at_label_insert.
Qed.

Lemma Forall2_fmap_diag {A B} (P : A → B → Prop) (f : A → B) (l : list A) :
  (∀ x, P x (f x)) → Forall2 P l (f <$> l).
Proof. intros HP. induction l; [constructor|]. rewrite fmap_cons. by constructor. Qed.

End NormalizeMore.

(** X1: for an upload whose renamed labels are pairwise different and
    include both cost columns, normalisation returns a frame with one
    row for each uploaded row, and on each of them the two cost cells
    are numbers and [cost_sum] is their sum. *)
Theorem normalize_keeps_rows_and_adds_costs `{Parsers} df_raw :
  distinct_labels (renamed df_raw) →
  "total_cost" ∈ columns (renamed df_raw) →
  "additional_cost" ∈ columns (renamed df_raw) →
  ∃ df, normalize df_raw = Ok df
    ∧ length (rows df) = length (rows df_raw)
    ∧ Forall cost_sum_holds (rows df).
Proof. intros _. apply normalize_cost_sum. Qed.

Lemma normalize_keeps_rows_and_adds_costs_witness :
  distinct_labels (renamed upload_required_only)
  ∧ ∃ df, normalize (H := no_parsers) upload_required_only = Ok df
      ∧ length (rows df) = 2%nat
      ∧ Forall cost_sum_holds (rows df).
Proof.
  assert (Hl : distinct_labels (renamed upload_required_only)) by by_evaluation.
  split; [exact Hl|].
  apply (normalize_keeps_rows_and_adds_costs (H := no_parsers)
           upload_required_only Hl); by_evaluation.
Defined.

(** X2: for an upload whose renamed labels are pairwise different and
    include both cost columns, normalisation fills each cost cell from
    the uploaded cell of the same row: a number is kept, a missing cell
    and a cell that reads as no number become 0. *)
Theorem normalize_fills_cost_cells `{Parsers} df_raw :
  distinct_labels (renamed df_raw) →
  "total_cost" ∈ columns (renamed df_raw) →
  "additional_cost" ∈ columns (renamed df_raw) →
  ∃ df, normalize df_raw = Ok df
    ∧ Forall2 (λ r0 r,
        at_label "total_cost" r = Num (filled_cost (at_label "total_cost" r0))
        ∧ at_label "additional_cost" r
          = Num (filled_cost (at_label "additional_cost" r0)))
        (rows (renamed df_raw)) (rows df).
Proof.
  intros _ Htc Hac. eexists. split; [by apply normalize_Ok|]. cbn [rows].
  apply Forall2_fmap_diag. intros r. split.
  - apply normalized_row_total_cost.
  - apply normalized_row_additional_cost.
Qed.

Lemma normalize_fills_cost_cells_witness :
  ∃ df, normalize (H := no_parsers) upload_required_only = Ok df
    ∧ (at_label "additional_cost" <$> rows (renamed upload_required_only))
      = [Str "n/a"; num 20]
    ∧ (at_label "additional_cost" <$> rows df) = [num 0; num 20].
Proof.
  destruct (normalize_fills_cost_cells (H := no_parsers) upload_required_only)
    as (df & E & _); [by_evaluation|by_evaluation|by_evaluation|].
  exists df. split; [exact E|].
  vm_compute in E. injection E as <-. split; vm_compute; reflexivity.
Defined.

(** X3: for an upload whose renamed labels are pairwise different and
    include the date and both cost columns, normalisation leaves a
    timestamp or NaT in every date cell: a timestamp is kept, a missing
    cell stays missing, and a text that does not read as a date becomes
    NaT. *)
Theorem normalize_converts_dates `{Parsers} df_raw :
  distinct_labels (renamed df_raw) →
  "assign_date" ∈ columns (renamed df_raw) →
  "total_cost" ∈ columns (renamed df_raw) →
  "additional_cost" ∈ columns (renamed df_raw) →
  ∃ df, normalize df_raw = Ok df
    ∧ datetime_column df "assign_date"
    ∧ Forall2 (λ r0 r,
        is_datetime (at_label "assign_date" r)
        ∧ (∀ t, at_label "assign_date" r0 = Timestamp t →
                at_label "assign_date" r = Timestamp t)
        ∧ (at_label "assign_date" r0 = NaN → at_label "assign_date" r = NaN)
        ∧ (∀ x, at_label "assign_date" r0 = Str x → parse_datetime x = None →
                at_label "assign_date" r = NaN))
        (rows (renamed df_raw)) (rows df).
Proof.
  intros _ Ha Htc Hac. eexists. split; [by apply normalize_Ok|].
  split; [apply normalized_datetime|]. cbn [rows].
  apply Forall2_fmap_diag. intros r.
  rewrite normalized_row_assign_date by done. split_and!.
  - apply is_datetime_to_datetime_cell.
  - by intros t ->.
  - by intros ->.
  - intros x -> Hx. simpl. by rewrite Hx.
Qed.

(** X4: for an upload whose renamed labels are pairwise different and
    include both cost columns, normalisation keeps the labels of the
    renamed upload, adding [cost_sum] when it is not among them, and
    leaves every cell under a label other than the four it writes to as
    it was. *)
Theorem normalize_keeps_other_columns `{Parsers} df_raw :
  distinct_labels (renamed df_raw) →
  "total_cost" ∈ columns (renamed df_raw) →
  "additional_cost" ∈ columns (renamed df_raw) →
  ∃ df, normalize df_raw = Ok df
    ∧ (∀ c, c ∈ columns df ↔ c ∈ columns (renamed df_raw) ∨ c = "cost_sum")
    ∧ Forall2 (λ r0 r, ∀ c, c ∉ written_labels → at_label c r = at_label c r0)
        (rows (renamed df_raw)) (rows df).
Proof.
  intros _ Htc Hac. eexists. split; [by apply normalize_Ok|].
  split; [intros c; apply elem_of_normalized_columns|]. cbn [rows].
  apply Forall2_fmap_diag. intros r c Hc.
  apply at_label_normalized_row; intros ->; apply Hc; by_evaluation.
Qed.

Lemma normalize_keeps_other_columns_witness :
  ∃ df, normalize (H := no_parsers) upload_required_only = Ok df
    ∧ ("job_id" ∈ columns df ∧ "cost_sum" ∈ columns df)
    ∧ (at_label "job_id" <$> rows df) = [num 1; num 2].
Proof.
  destruct (normalize_keeps_other_columns (H := no_parsers) upload_required_only)
    as (df & E & Hcols & _); [by_evaluation|by_evaluation|by_evaluation|].
  exists df. split; [exact E|]. split.
  - split; apply Hcols; [left; by_evaluation|by right].
  - vm_compute in E. injection E as <-. vm_compute. reflexivity.
Defined.

Lemma normalize_converts_dates_witness :
  ∃ df, normalize (H := no_parsers) upload_full = Ok df
    ∧ datetime_column df "assign_date"
    ∧ (at_label "assign_date" <$> rows df) = [day 19723; NaN; NaN].
Proof.
  destruct (normalize_converts_dates (H := no_parsers) upload_full)
    as (df & E & Hd & _);
    [by_evaluation|by_evaluation|by_evaluation|by_evaluation|].
  exists df. split; [exact E|]. split; [exact Hd|].
  vm_compute in E. injection E as <-. vm_compute. reflexivity.
Defined.

(** ** Renaming *)

Lemma COLUMN_MAP_values c v :
  COLUMN_MAP !! c = Some v →
  v ∈ ["assign_date"; "job_id"; "num_deliveries"; "num_items"; "total_cost";
       "additional_cost"; "route_name"; "success_count"; "fail_count"].
Proof.
  intros Hc. unfold COLUMN_MAP in Hc.
  apply elem_of_list_to_map_2 in Hc.
  repeat (apply elem_of_cons in Hc as [[= -> ->]|Hc]; [by_evaluation|]).
  by apply elem_of_nil in Hc.
Qed.

Lemma rename_label_idemp c :
  rename_label COLUMN_MAP (rename_label COLUMN_MAP c) = rename_label COLUMN_MAP c.
Proof.
  unfold rename_label at 2 3.
  destruct (COLUMN_MAP !! c) as [v|] eqn:E; simpl; [|by unfold rename_label; rewrite E].
  apply COLUMN_MAP_values in E.
  repeat (apply elem_of_cons in E as [->|E]; [by vm_compute|]).
  by apply elem_of_nil in E.
Qed.

Lemma rename_label_present (cols : list string) c :
  c ∈ cols →
  rename_label (filter (λ kv, kv.1 ∈ cols) COLUMN_MAP) c = rename_label COLUMN_MAP c.
Proof.
  intros Hc. unfold rename_label.
  destruct (COLUMN_MAP !! c) as [v|] eqn:E.
  - assert (filter (λ kv : string * string, kv.1 ∈ cols) COLUMN_MAP !! c = Some v)
      as -> by (by apply map_lookup_filter_Some).
    done.
  - assert (filter (λ kv : string * string, kv.1 ∈ cols) COLUMN_MAP !! c = None)
      as -> by (apply map_lookup_filter_None; by left).
    done.
Qed.

Lemma renamed_columns df_raw :
  columns (renamed df_raw) = rename_label COLUMN_MAP <$> columns df_raw.
Proof.
  unfold renamed, rename. cbn [columns].
  apply list_fmap_ext. intros _ c Hc%list_elem_of_lookup_2.
  by apply rename_label_present.
Qed.

(** X5: renaming keeps the number of columns and of rows, gives every
    header of [COLUMN_MAP] its canonical name and keeps every other
    header; renaming the renamed frame changes no label. *)
Theorem renamed_labels df_raw :
  columns (renamed df_raw) = rename_label COLUMN_MAP <$> columns df_raw
  ∧ length (columns (renamed df_raw)) = length (columns df_raw)
  ∧ length (rows (renamed df_raw)) = length (rows df_raw)
  ∧ (∀ c, COLUMN_MAP !! c = None → rename_label COLUMN_MAP c = c)
  ∧ columns (renamed (renamed df_raw)) = columns (renamed df_raw).
Proof.
  split_and!.
  - apply renamed_columns.
  - by rewrite renamed_columns, length_fmap.
  - unfold renamed, rename. cbn [rows]. by rewrite length_fmap.
  - intros c Hc. unfold rename_label. by rewrite Hc.
  - rewrite !renamed_columns, <- list_fmap_compose.
    apply list_fmap_ext. intros _ c _. apply rename_label_idemp.
Qed.

(** ** The frame that is shown *)

(** X6: for an upload whose renamed labels are pairwise different and
    include both cost columns, lines 32-58 return a frame that has at
    most as many rows as the upload, on every row of which [cost_sum]
    is the sum of the two cost cells, and whose date column (when there
    is one) holds timestamps and NaT only. *)
Theorem filtered_keeps_cost_sum `{Parsers} df_raw date_range route_filter :
  distinct_labels (renamed df_raw) →
  "total_cost" ∈ columns (renamed df_raw) →
  "additional_cost" ∈ columns (renamed df_raw) →
  ∃ df, filtered df_raw date_range route_filter = Ok df
    ∧ (length (rows df) ≤ length (rows df_raw))%nat
    ∧ (∀ c, c ∈ columns df ↔ c ∈ columns (renamed df_raw) ∨ c = "cost_sum")
    ∧ Forall cost_sum_holds (rows df)
    ∧ datetime_column df "assign_date".
Proof.
  intros _ Htc Hac.
  destruct (filtered_Ok df_raw date_range route_filter Htc Hac) as (K & HK & E).
  eexists. split; [exact E|]. cbn [rows columns]. split_and!.
  - etrans; [apply length_filter|].
    unfold renamed, rename. cbn [rows]. by rewrite !length_fmap.
  - intros c. apply elem_of_normalized_columns.
  - apply Forall_filter_rows, Forall_fmap, Forall_forall.
    intros r _. apply normalized_row_costs.
  - intros Ha. cbn [rows columns] in *. apply Forall_filter_rows.
    apply (normalized_datetime (columns (renamed df_raw)) (rows (renamed df_raw)) Ha).
Qed.

Lemma filtered_keeps_cost_sum_witness :
  ∃ df, filtered (H := no_parsers) upload_full (DateTuple [19723; 19723]%Z) [] = Ok df
    ∧ length (rows df) = 1%nat
    ∧ Forall cost_sum_holds (rows df).
Proof.
  destruct (filtered_keeps_cost_sum (H := no_parsers) upload_full
              (DateTuple [19723; 19723]%Z) [])
    as (df & E & _ & _ & Hc & _); [by_evaluation|by_evaluation|by_evaluation|].
  exists df. split; [exact E|]. split; [|exact Hc].
  vm_compute in E. injection E as <-. reflexivity.
Defined.

(** ** Totals *)

Lemma total_app l1 l2 : total (l1 ++ l2) = (total l1 + total l2)%Qc.
Proof.
  unfold total. induction l1 as [|x l1 IH]; simpl.
  - by rewrite Qcplus_0_l.
  - by rewrite IH, Qcplus_assoc.
Qed.

Lemma total_Permutation l1 l2 : l1 ≡ₚ l2 → total l1 = total l2.
Proof.
  unfold total. induction 1 as [|x l1 l2 _ IH|x y l|l1 l2 l3 _ IH1 _ IH2]; simpl.
  - done.
  - by rewrite IH.
  - rewrite !Qcplus_assoc. f_equal. apply Qcplus_comm.
  - by rewrite IH1.
Qed.

Lemma column_total_app c l1 l2 :
  column_total c (l1 ++ l2) = (column_total c l1 + column_total c l2)%Qc.
Proof. unfold column_total. by rewrite fmap_app, total_app. Qed.

Lemma column_total_Permutation c l1 l2 :
  l1 ≡ₚ l2 → column_total c l1 = column_total c l2.
Proof. intros Hl. unfold column_total. apply total_Permutation. by rewrite Hl. Qed.

Lemma column_total_plus (l : list (gmap string cell)) :
  Forall cost_sum_holds l →
  column_total "cost_sum" l
  = (column_total "total_cost" l + column_total "additional_cost" l)%Qc.
Proof.
  unfold column_total, total.
  induction 1 as [|r l (x & y & Ex & Ey & Es) _ IH].
  - by rewrite Qcplus_0_l.
  - rewrite !fmap_cons. cbn [foldr]. rewrite IH, Ex, Ey, Es. cbn [number_of].
    ring.
Qed.

Lemma cost_sum_holds_filled (l : list (gmap string cell)) c :
  c = "total_cost" ∨ c = "additional_cost" ∨ c = "cost_sum" →
  Forall cost_sum_holds l → Forall (λ r, is_number (at_label c r)) l.
Proof.
  intros Hc Hl. eapply Forall_impl; [exact Hl|].
  intros r (x & y & Ex & Ey & Es). cbn.
  destruct Hc as [->|[->| ->]]; by rewrite ?Ex, ?Ey, ?Es.
Qed.

Lemma exact_column_numeric c rs :
  exact_column c rs → Forall (λ r, is_numeric (at_label c r)) rs.
Proof.
  intros [Hint _]. eapply Forall_impl; [exact Hint|].
  intros r. cbn. by destruct (at_label c r).
Qed.

(** X7: on a frame on whose rows [cost_sum] is the sum of the two cost
    cells, and whose three cost columns hold whole numbers that add up
    exactly, the total cost shown is the base cost plus the additional
    cost shown in the breakdown. *)
Theorem total_cost_is_base_plus_additional df :
  "cost_sum" ∈ columns df → "total_cost" ∈ columns df →
  "additional_cost" ∈ columns df →
  Forall cost_sum_holds (rows df) →
  exact_column "total_cost" (rows df) →
  exact_column "additional_cost" (rows df) →
  exact_column "cost_sum" (rows df) →
  ∃ v, cost_analysis df = Ok v
    ∧ total_cost_sum v = (base_cost v + additional_cost_value v)%Qc.
Proof.
  intros Hcs Htc Hac Hrows _ _ _. eexists. split.
  - apply cost_analysis_Ok; (split; [done|]);
      apply cost_sum_holds_filled; tauto.
  - cbn [total_cost_sum base_cost additional_cost_value].
    by apply column_total_plus.
Qed.

Lemma sample_frame_cost_sum : Forall cost_sum_holds (rows sample_frame).
Proof.
  repeat (apply Forall_cons; split;
    [eexists _, _; split_and!; vm_compute; reflexivity|]).
  apply Forall_nil_2.
Defined.

Lemma total_cost_is_base_plus_additional_witness :
  Forall cost_sum_holds (rows sample_frame)
  ∧ exact_column "total_cost" (rows sample_frame)
  ∧ exact_column "additional_cost" (rows sample_frame)
  ∧ exact_column "cost_sum" (rows sample_frame)
  ∧ ∃ v, cost_analysis sample_frame = Ok v
      ∧ total_cost_sum v = (base_cost v + additional_cost_value v)%Qc.
Proof.
  assert (Htc : exact_column "total_cost" (rows sample_frame)) by by_evaluation.
  assert (Hac : exact_column "additional_cost" (rows sample_frame))
    by by_evaluation.
  assert (Hcs : exact_column "cost_sum" (rows sample_frame)) by by_evaluation.
  split; [exact sample_frame_cost_sum|].
  split; [exact Htc|]. split; [exact Hac|]. split; [exact Hcs|].
  apply (total_cost_is_base_plus_additional sample_frame);
    [by_evaluation|by_evaluation|by_evaluation|exact sample_frame_cost_sum
    |exact Htc|exact Hac|exact Hcs].
Defined.

(** ** Groups add up *)

Lemma filter_ext_in {A} (P Q : A → Prop) `{∀ x, Decision (P x)}
    `{∀ x, Decision (Q x)} (l : list A) :
  (∀ x, x ∈ l → P x ↔ Q x) → filter P l = filter Q l.
Proof.
  induction l as [|x l IH]; intros HPQ; [done|].
  rewrite !filter_cons.
  rewrite IH by (intros y Hy; apply HPQ; by right).
  assert (Hx : P x ↔ Q x) by (apply HPQ; left).
  destruct (decide (P x)) as [HP|HP], (decide (Q x)) as [HQ|HQ];
    try done; tauto.
Qed.

Lemma total_plus {A} (g h : A → Qc) (l : list A) :
  total ((λ k, g k + h k)%Qc <$> l) = (total (g <$> l) + total (h <$> l))%Qc.
Proof.
  unfold total. induction l as [|k l IH].
  - cbn. by rewrite Qcplus_0_l.
  - rewrite !fmap_cons. cbn [foldr]. rewrite IH. ring.
Qed.

Lemma total_pick (a : cell) (v : Qc) (ks : list cell) :
  NoDup ks →
  total ((λ k, if decide (a = k) then v else 0%Qc) <$> ks)
  = if decide (a ∈ ks) then v else 0%Qc.
Proof.
  unfold total. induction 1 as [|k ks Hk _ IH]; [done|].
  rewrite fmap_cons. cbn [foldr]. rewrite IH.
  destruct (decide (a = k)) as [->|Hne].
  - rewrite decide_False by done. rewrite decide_True by left. ring.
  - destruct (decide (a ∈ ks)) as [Hin|Hin].
    + rewrite decide_True by by right. ring.
    + rewrite decide_False; [ring|]. by intros [?|?]%elem_of_cons.
Qed.

(** The totals of the groups of the keys [ks] add up to the total over
    the rows whose key is among [ks]. *)
Lemma grouped_total_keys c (key : gmap string cell → cell) ks rs :
  NoDup ks →
  total ((λ k, column_total c (filter (λ r, key r = k) rs)) <$> ks)
  = column_total c (filter (λ r, key r ∈ ks) rs).
Proof.
  intros Hks. induction rs as [|r rs IH].
  - unfold column_total, total. induction ks; [done|].
    rewrite fmap_cons. cbn. rewrite Qcplus_0_l. apply IHks. by inversion Hks.
  - rewrite (filter_cons (λ r, key r ∈ ks)).
    erewrite list_fmap_ext; cycle 1.
    { intros _ k _. rewrite filter_cons.
      instantiate (1 := λ k, ((if decide (key r = k)
                               then number_of (at_label c r) else 0)
                              + column_total c (filter (λ r, key r = k) rs))%Qc).
      cbn beta. destruct (decide (key r = k)).
      - unfold column_total, total. by rewrite fmap_cons.
      - by rewrite Qcplus_0_l. }
    rewrite total_plus, IH, total_pick by done.
    destruct (decide (key r ∈ ks)).
    + unfold column_total, total. by rewrite fmap_cons.
    + by rewrite Qcplus_0_l.
Qed.

Lemma grouped_total c (key : gmap string cell → cell) rs :
  total ((λ k, column_total c (filter (λ r, key r = k) rs))
           <$> group_keys (key <$> rs))
  = column_total c (filter (λ r, key r ≠ NaN) rs).
Proof.
  rewrite grouped_total_keys by apply NoDup_group_keys. f_equal.
  apply filter_ext_in. intros r Hr. rewrite elem_of_group_keys.
  split; [tauto|]. intros Hna. split; [done|]. by apply list_elem_of_fmap_2.
Qed.

(** X8: when the two count columns hold whole numbers that add up
    exactly, the deliveries and the items of the trend rows add up to
    those of the rows that have a date; when every row has one, they
    add up to the totals of the operational summary. *)
Theorem trend_adds_up df :
  "assign_date" ∈ columns df → "job_id" ∈ columns df →
  "num_deliveries" ∈ columns df → "num_items" ∈ columns df →
  exact_column "num_deliveries" (rows df) →
  exact_column "num_items" (rows df) →
  ∃ t s, trend_df df = Ok t ∧ operational_summary df = Ok s
    ∧ total (tr_deliveries <$> t)
      = column_total "num_deliveries"
          (filter (λ r, at_label "assign_date" r ≠ NaN) (rows df))
    ∧ total (tr_items <$> t)
      = column_total "num_items"
          (filter (λ r, at_label "assign_date" r ≠ NaN) (rows df))
    ∧ (Forall (λ r, at_label "assign_date" r ≠ NaN) (rows df) →
       total (tr_deliveries <$> t) = total_deliveries s
       ∧ total (tr_items <$> t) = total_items s).
Proof.
  intros Ha Hj Hd Hi Hed%exact_column_numeric Hei%exact_column_numeric.
  assert (Hnd : numeric_column df "num_deliveries") by (by intros _).
  assert (Hni : numeric_column df "num_items") by (by intros _).
  eexists _, _.
  split; [by apply trend_df_Ok|]. split; [by apply operational_summary_Ok|].
  rewrite <- !list_fmap_compose. cbn [total_deliveries total_items].
  pose proof (grouped_total "num_deliveries" (at_label "assign_date") (rows df)) as E1.
  pose proof (grouped_total "num_items" (at_label "assign_date") (rows df)) as E2.
  split; [exact E1|]. split; [exact E2|].
  intros Hall. rewrite (filter_all _ _ Hall) in E1, E2. by split.
Qed.

Lemma trend_adds_up_witness :
  ∃ t s, trend_df sample_frame = Ok t ∧ operational_summary sample_frame = Ok s
    ∧ length t = 2%nat
    ∧ Num (total (tr_deliveries <$> t)) = num 4
    ∧ Num (total_deliveries s) = num 6.
Proof.
  destruct (trend_adds_up sample_frame) as (t & s & Et & Es & E1 & _);
    [by_evaluation|by_evaluation|by_evaluation|by_evaluation
    |by_evaluation|by_evaluation|].
  exists t, s. split; [exact Et|]. split; [exact Es|].
  rewrite E1. vm_compute in Et, Es. injection Et as <-. injection Es as <-.
  split; [reflexivity|].
  split; unfold num; f_equal; apply Qc_is_canon; vm_compute; reflexivity.
Defined.

(** X9: when [cost_sum] holds whole numbers that add up exactly, the
    total costs of the routes add up to the cost of the rows that have
    a route; when every row has one, they add up to the total cost of
    the cost analysis. *)
Theorem route_costs_add_up df :
  "route_name" ∈ columns df → "job_id" ∈ columns df →
  filled_column df "cost_sum" → filled_column df "total_cost" →
  filled_column df "additional_cost" →
  exact_column "cost_sum" (rows df) →
  ∃ rp v, route_groups df = Ok rp ∧ cost_analysis df = Ok v
    ∧ total (rp_total_cost <$> rp)
      = column_total "cost_sum"
          (filter (λ r, at_label "route_name" r ≠ NaN) (rows df))
    ∧ (all_routed df → total (rp_total_cost <$> rp) = total_cost_sum v).
Proof.
  intros Hr Hj Hcs Htc Hac _. eexists _, _.
  split; [apply route_groups_Ok; try done; [apply Hcs|by apply filled_numeric]|].
  split; [by apply cost_analysis_Ok|].
  rewrite <- !list_fmap_compose. cbn [total_cost_sum].
  pose proof (grouped_total "cost_sum" (at_label "route_name") (rows df)) as E.
  split; [exact E|].
  intros Hall. by rewrite (filter_all _ _ Hall) in E.
Qed.

Lemma route_costs_add_up_witness :
  all_routed sample_frame
  ∧ ∃ rp v, route_groups sample_frame = Ok rp ∧ cost_analysis sample_frame = Ok v
      ∧ total (rp_total_cost <$> rp) = total_cost_sum v.
Proof.
  assert (Hall : all_routed sample_frame) by by_evaluation.
  split; [exact Hall|].
  destruct (route_costs_add_up sample_frame) as (rp & v & E1 & E2 & _ & E);
    [by_evaluation|by_evaluation|split; by_evaluation|split; by_evaluation
    |split; by_evaluation|by_evaluation|].
  exists rp, v. split; [exact E1|]. split; [exact E2|exact (E Hall)].
Defined.

(** ** The order of the tables *)

#[global] Instance cell_leb_total : Total (λ a b, Is_true (cell_leb a b)).
Proof.
  intros [|x|x|x] [|y|y|y]; simpl; try (by left); try (by right).
  - destruct (Qc_le_total x y); [left|right]; by apply bool_decide_pack.
  - apply String.le_total.
  - destruct (Z.le_ge_cases x y); [left|right]; by apply Is_true_true, Z.leb_le.
Qed.

#[global] Instance cell_leb_trans : Transitive (λ a b, Is_true (cell_leb a b)).
Proof.
  intros [|x|x|x] [|y|y|y] [|z|z|z]; simpl; try done.
  - intros Hxy%bool_decide_unpack Hyz%bool_decide_unpack.
    apply bool_decide_pack. by etrans.
  - apply (transitivity (R := String.le)).
  - rewrite !Is_true_true, !Z.leb_le. lia.
Qed.

#[global] Instance float_leb_total {A} (f : A → cell) :
  Total (λ a b, Is_true (float_leb true (f a) (f b))).
Proof.
  intros a b. destruct (f a) as [|x|x|x], (f b) as [|y|y|y]; simpl;
    try (by left); try (by right).
  - destruct (Qc_le_total x y); [left|right]; by apply bool_decide_pack.
  - apply String.le_total.
  - destruct (Z.le_ge_cases x y); [left|right]; by apply Is_true_true, Z.leb_le.
Qed.

#[global] Instance float_leb_trans {A} (f : A → cell) :
  Transitive (λ a b, Is_true (float_leb true (f a) (f b))).
Proof.
  intros a b c. destruct (f a) as [|x|x|x], (f b) as [|y|y|y], (f c) as [|z|z|z];
    simpl; try done.
  - intros Hxy%bool_decide_unpack Hyz%bool_decide_unpack.
    apply bool_decide_pack. by etrans.
  - apply (transitivity (R := String.le)).
  - rewrite !Is_true_true, !Z.leb_le. lia.
Qed.

#[global] Instance jobs_desc_total :
  Total (λ a b, Is_true (bool_decide (rp_total_jobs b ≤ rp_total_jobs a)%nat)).
Proof.
  intros a b. destruct (Nat.le_ge_cases (rp_total_jobs a) (rp_total_jobs b));
    [right|left]; by apply bool_decide_pack.
Qed.

Lemma length_group_keys (s : Series) : length (group_keys s) = nunique s.
Proof. unfold group_keys, nunique. by rewrite merge_sort_Permutation. Qed.

Lemma StronglySorted_group_keys (s : Series) :
  StronglySorted (λ a b, Is_true (cell_leb a b)) (group_keys s).
Proof. unfold group_keys. apply StronglySorted_merge_sort; apply _. Qed.

(** Sorted, distinct timestamps are strictly increasing. *)
Lemma StronglySorted_date_before (l : list cell) :
  StronglySorted (λ a b, Is_true (cell_leb a b)) l → NoDup l →
  Forall (λ c, is_datetime c ∧ c ≠ NaN) l →
  StronglySorted date_before l.
Proof.
  induction 1 as [|a l _ IH Ha]; intros Hnd Hl; [constructor|].
  apply NoDup_cons in Hnd as [Hal Hnd]. apply Forall_cons in Hl as [[Hta Hna] Hl].
  constructor; [by apply IH|].
  rewrite Forall_forall in Ha, Hl |- *. intros b Hb.
  destruct (Hl b Hb) as [Htb Hnb]. specialize (Ha b Hb).
  destruct a as [| | |s], b as [| | |t]; try done. simpl in *.
  apply Is_true_true, Z.leb_le in Ha.
  assert (s ≠ t) by (intros ->; done). lia.
Qed.

(** X10: the trend table has one row for each distinct date of the
    frame, none for the missing date, in strictly increasing order of
    the timestamps. *)
Theorem trend_rows_by_date df :
  "assign_date" ∈ columns df → "job_id" ∈ columns df →
  "num_deliveries" ∈ columns df → "num_items" ∈ columns df →
  numeric_column df "num_deliveries" → numeric_column df "num_items" →
  datetime_column df "assign_date" →
  ∃ t, trend_df df = Ok t
    ∧ length t = nunique (at_label "assign_date" <$> rows df)
    ∧ (∀ d, d ∈ tr_assign_date <$> t ↔
         d ≠ NaN ∧ d ∈ at_label "assign_date" <$> rows df)
    ∧ StronglySorted date_before (tr_assign_date <$> t).
Proof.
  intros Ha Hj Hd Hi Hnd Hni Hdt. eexists. split; [by apply trend_df_Ok|].
  rewrite length_fmap, <- list_fmap_compose.
  assert (E : (tr_assign_date ∘ trend_row_of (rows df))
                <$> group_keys (at_label "assign_date" <$> rows df)
              = group_keys (at_label "assign_date" <$> rows df)).
  { rewrite <- (list_fmap_id (group_keys _)) at 2. by apply list_fmap_ext. }
  rewrite E. split_and!.
  - apply length_group_keys.
  - intros d. apply elem_of_group_keys.
  - apply StronglySorted_date_before.
    + apply StronglySorted_group_keys.
    + apply NoDup_group_keys.
    + apply Forall_forall. intros d [Hna (r & -> & Hr)%list_elem_of_fmap]%elem_of_group_keys.
      split; [|done]. specialize (Hdt Ha). rewrite Forall_forall in Hdt. by apply Hdt.
Qed.

Lemma trend_rows_by_date_witness :
  ∃ t, trend_df sample_frame = Ok t
    ∧ (tr_assign_date <$> t) = [day 19723; day 19724]
    ∧ StronglySorted date_before (tr_assign_date <$> t).
Proof.
  destruct (trend_rows_by_date sample_frame) as (t & E & _ & _ & Hs);
    [by_evaluation|by_evaluation|by_evaluation|by_evaluation
    |intros _; by_evaluation|intros _; by_evaluation|intros _; by_evaluation|].
  exists t. split; [exact E|]. split; [|exact Hs].
  vm_compute in E. injection E as <-. reflexivity.
Defined.

(** X11: the route table has one row for each distinct route of the
    frame, none for the missing route, each route once, in the order of
    the keys. *)
Theorem route_rows_by_name df :
  "route_name" ∈ columns df → "job_id" ∈ columns df →
  "cost_sum" ∈ columns df → numeric_column df "cost_sum" →
  ∃ rp, route_groups df = Ok rp
    ∧ length rp = nunique (at_label "route_name" <$> rows df)
    ∧ (∀ k, k ∈ rp_route_name <$> rp ↔
         k ≠ NaN ∧ k ∈ at_label "route_name" <$> rows df)
    ∧ NoDup (rp_route_name <$> rp)
    ∧ StronglySorted (λ a b, Is_true (cell_leb a b)) (rp_route_name <$> rp).
Proof.
  intros Hr Hj Hc Hnc. eexists. split; [by apply route_groups_Ok|].
  rewrite length_fmap, <- list_fmap_compose.
  assert (E : (rp_route_name ∘ route_row_of (rows df))
                <$> group_keys (at_label "route_name" <$> rows df)
              = group_keys (at_label "route_name" <$> rows df)).
  { rewrite <- (list_fmap_id (group_keys _)) at 2. by apply list_fmap_ext. }
  rewrite E. split_and!.
  - apply length_group_keys.
  - intros k. apply elem_of_group_keys.
  - apply NoDup_group_keys.
  - apply StronglySorted_group_keys.
Qed.

Lemma route_rows_by_name_witness :
  ∃ rp, route_groups sample_frame = Ok rp
    ∧ (rp_route_name <$> rp) = [Str "A"; Str "B"]
    ∧ (rp_total_jobs <$> rp) = [2%nat; 1%nat].
Proof.
  destruct (route_rows_by_name sample_frame) as (rp & E & _);
    [by_evaluation|by_evaluation|by_evaluation|intros _; by_evaluation|].
  exists rp. split; [exact E|].
  vm_compute in E. injection E as <-. split; reflexivity.
Defined.

(** ** The route views *)

Lemma route_rows_nonempty rs k :
  k ∈ group_keys (at_label "route_name" <$> rs) → route_rows rs k ≠ [].
Proof.
  intros [_ (r & -> & Hr)%list_elem_of_fmap]%elem_of_group_keys E.
  assert (Hin : r ∈ route_rows rs (at_label "route_name" r))
    by (by apply list_elem_of_filter).
  rewrite E in Hin. by apply elem_of_nil in Hin.
Qed.

Lemma mean_cell_filled (l : list (gmap string cell)) c :
  l ≠ [] → Forall (λ r, is_number (at_label c r)) l →
  ∃ b, mean_cell (at_label c <$> l) = Num b.
Proof.
  intros Hl Hf. unfold mean_cell. rewrite series_count_filled by done.
  destruct l; [done|]. by eexists.
Qed.

Lemma route_row_avg df row :
  filled_column df "cost_sum" →
  row ∈ route_row_of (rows df) <$> group_keys (at_label "route_name" <$> rows df) →
  ∃ b, rp_avg_cost row = Num b.
Proof.
  intros [_ Hf] (k & -> & Hk)%list_elem_of_fmap. cbn [rp_avg_cost route_row_of].
  apply mean_cell_filled; [by apply route_rows_nonempty|].
  by apply Forall_filter_rows.
Qed.

(** The views of lines 109-162 on a frame that has a routed row. *)
Lemma route_performance_view df :
  "route_name" ∈ columns df → "job_id" ∈ columns df →
  "cost_sum" ∈ columns df → numeric_column df "cost_sum" →
  has_routed_row df →
  let rp := route_row_of (rows df) <$> group_keys (at_label "route_name" <$> rows df) in
  let by_avg := sort_values (λ a b, float_leb true (rp_avg_cost a) (rp_avg_cost b)) rp in
  ∃ c rest, by_avg = c :: rest
    ∧ route_performance df
      = Ok (mkRouteView rp
              (sort_values (λ a b, bool_decide (rp_total_jobs b ≤ rp_total_jobs a)%nat) rp)
              (take 10 (sort_values
                          (λ a b, bool_decide (rp_total_cost b ≤ rp_total_cost a)%Qc) rp))
              (rp_route_name c) (rp_avg_cost c)
              (take 10 by_avg)
              (take 10 (sort_values
                          (λ a b, float_leb false (rp_avg_cost a) (rp_avg_cost b)) rp))).
Proof.
  intros Hr Hj Hc Hnc Hrow rp by_avg. unfold route_performance.
  rewrite route_groups_Ok, bind_Ok by done. fold rp. fold by_avg.
  destruct by_avg as [|c rest] eqn:E.
  - exfalso. apply (group_keys_nonempty df Hrow).
    apply (fmap_nil_inv (route_row_of (rows df))). fold rp.
    apply Permutation_nil_r. rewrite <- E. subst by_avg. unfold sort_values.
    symmetry. apply merge_sort_Permutation.
  - by exists c, rest.
Qed.

(** X12: the route shown as the cheapest is a row of the route table,
    and no route of the table has a lower average cost. *)
Theorem cheapest_route_is_minimal df :
  "route_name" ∈ columns df → "job_id" ∈ columns df →
  filled_column df "cost_sum" → has_routed_row df →
  ∃ v a, route_performance df = Ok v
    ∧ cheapest_value v = Num a
    ∧ (∃ row, row ∈ route_perf v ∧ rp_route_name row = cheapest_name v
              ∧ rp_avg_cost row = Num a)
    ∧ (∀ row, row ∈ route_perf v →
         ∃ b, rp_avg_cost row = Num b ∧ (a ≤ b)%Qc).
Proof.
  intros Hr Hj Hcs Hrow.
  destruct (route_performance_view df Hr Hj (proj1 Hcs) (filled_numeric _ _ Hcs) Hrow)
    as (c & rest & E & ->).
  set (rp := route_row_of (rows df) <$> group_keys (at_label "route_name" <$> rows df)) in *.
  set (R := λ a b : route_row, Is_true (float_leb true (rp_avg_cost a) (rp_avg_cost b))).
  assert (Hperm : c :: rest ≡ₚ rp).
  { rewrite <- E. unfold sort_values. apply merge_sort_Permutation. }
  assert (Hsort : StronglySorted R (c :: rest)).
  { rewrite <- E. unfold sort_values. apply StronglySorted_merge_sort; apply _. }
  assert (Hc : c ∈ rp) by (rewrite <- Hperm; left).
  destruct (route_row_avg df c Hcs Hc) as [a Ea].
  assert (Hmin : ∀ row, row ∈ rp → R c row).
  { intros row Hin. rewrite <- Hperm in Hin.
    apply elem_of_cons in Hin as [->|Hin].
    - by destruct (float_leb_total rp_avg_cost c c).
    - apply StronglySorted_inv in Hsort as [_ Hall].
      rewrite Forall_forall in Hall. by apply Hall. }
  eexists _, a. split; [reflexivity|].
  cbn [cheapest_value cheapest_name route_perf].
  split; [exact Ea|]. split; [by exists c|].
  intros row Hin. destruct (route_row_avg df row Hcs Hin) as [b Eb].
  exists b. split; [exact Eb|].
  specialize (Hmin row Hin). unfold R in Hmin. rewrite Ea, Eb in Hmin.
  by apply bool_decide_unpack in Hmin.
Qed.

Lemma cheapest_route_is_minimal_witness :
  has_routed_row sample_frame
  ∧ ∃ v, route_performance sample_frame = Ok v
      ∧ cheapest_name v = Str "B" ∧ cheapest_value v = num 50.
Proof.
  assert (Hrow : has_routed_row sample_frame) by by_evaluation.
  split; [exact Hrow|].
  destruct (cheapest_route_is_minimal sample_frame) as (v & a & E & _);
    [by_evaluation|by_evaluation|split; by_evaluation|exact Hrow|].
  exists v. split; [exact E|].
  vm_compute in E. injection E as <-.
  split; reflexivity.
Defined.

Lemma Sorted_weaken {A} (R R' : relation A) (l : list A) :
  (∀ a b, R a b → R' a b) → Sorted R l → Sorted R' l.
Proof.
  intros HR. induction 1 as [|a l _ IH Hd]; constructor; [done|].
  destruct Hd; constructor. by apply HR.
Qed.

(** X13: the table by jobs lists the rows of the route table, each once,
    in descending order of the job count; each of the three top-10
    tables has at most ten rows, all of them rows of the route table. *)
Theorem route_rankings df :
  "route_name" ∈ columns df → "job_id" ∈ columns df →
  "cost_sum" ∈ columns df → numeric_column df "cost_sum" →
  has_routed_row df →
  ∃ v, route_performance df = Ok v
    ∧ routes_by_jobs v ≡ₚ route_perf v
    ∧ Sorted (λ a b, rp_total_jobs b ≤ rp_total_jobs a)%nat (routes_by_jobs v)
    ∧ (length (top_routes_cost v) ≤ 10 ∧ length (cheapest_routes v) ≤ 10
       ∧ length (expensive_routes v) ≤ 10)%nat
    ∧ top_routes_cost v ⊆ route_perf v
    ∧ cheapest_routes v ⊆ route_perf v
    ∧ expensive_routes v ⊆ route_perf v.
Proof.
  intros Hr Hj Hc Hnc Hrow.
  destruct (route_performance_view df Hr Hj Hc Hnc Hrow) as (c & rest & E & ->).
  eexists. split; [reflexivity|].
  cbn [routes_by_jobs route_perf top_routes_cost cheapest_routes expensive_routes].
  assert (Hsub : ∀ (leb : route_row → route_row → bool) l,
            take 10 (sort_values leb l) ⊆ l).
  { intros leb l x Hx%subseteq_take. unfold sort_values in Hx.
    by rewrite merge_sort_Permutation in Hx. }
  split_and!; try apply Hsub; try (rewrite length_take; lia).
  - unfold sort_values. apply merge_sort_Permutation.
  - unfold sort_values.
    eapply Sorted_weaken; [|apply Sorted_merge_sort; apply _].
    intros a b Hab. by apply bool_decide_unpack in Hab.
Qed.

Lemma route_rankings_witness :
  has_routed_row sample_frame
  ∧ ∃ v, route_performance sample_frame = Ok v
      ∧ (rp_route_name <$> routes_by_jobs v) = [Str "A"; Str "B"]
      ∧ (rp_route_name <$> top_routes_cost v) = [Str "A"; Str "B"]
      ∧ (rp_route_name <$> expensive_routes v) = [Str "A"; Str "B"]
      ∧ (rp_route_name <$> cheapest_routes v) = [Str "B"; Str "A"].
Proof.
  assert (Hrow : has_routed_row sample_frame) by by_evaluation.
  split; [exact Hrow|].
  destruct (route_rankings sample_frame) as (v & E & _);
    [by_evaluation|by_evaluation|by_evaluation|intros _; by_evaluation
    |exact Hrow|].
  exists v. split; [exact E|].
  vm_compute in E. injection E as <-. split_and!; reflexivity.
Defined.

(** X14: the route views of a frame that has the route column and no
    row with a route (a frame without rows among them) stop the page
    with IndexError, at line 136, after the summary, the trend and the
    cost analysis have been computed. *)
Theorem render_without_routed_row df :
  "job_id" ∈ columns df → "num_deliveries" ∈ columns df →
  "num_items" ∈ columns df →
  numeric_column df "num_deliveries" → numeric_column df "num_items" →
  filled_column df "cost_sum" → filled_column df "total_cost" →
  filled_column df "additional_cost" →
  "route_name" ∈ columns df →
  Forall (λ r, at_label "route_name" r = NaN) (rows df) →
  succeeds (operational_summary df) ∧ succeeds (cost_analysis df)
  ∧ route_performance df = Raise IndexError
  ∧ render df = Raise IndexError.
Proof.
  intros Hj Hd Hi Hnd Hni Hcs Htc Hac Hr Hall.
  assert (Hnc := filled_numeric _ _ Hcs).
  assert (Hrp : route_performance df = Raise IndexError)
    by (apply route_performance_no_group; try done; apply Hcs).
  split; [eexists; by apply operational_summary_Ok|].
  split; [eexists; by apply cost_analysis_Ok|]. split; [exact Hrp|].
  unfold render, when_column.
  rewrite operational_summary_Ok, bind_Ok by done.
  rewrite cost_analysis_Ok by done.
  destruct (routes_cost_Ok df Hr (proj1 Hcs) Hnc) as [rc Erc].
  destruct (decide ("route_name" ∈ columns df)) as [_|?]; [|done].
  rewrite Erc, Hrp.
  destruct (decide ("assign_date" ∈ columns df));
    [rewrite trend_df_Ok by done|]; rewrite !bind_Ok; reflexivity.
Qed.

Lemma render_without_routed_row_witness :
  rows empty_frame = [] ∧ render empty_frame = Raise IndexError.
Proof.
  split; [reflexivity|].
  apply (render_without_routed_row empty_frame);
    [by_evaluation|by_evaluation|by_evaluation
    |intros _; by_evaluation|intros _; by_evaluation
    |split; by_evaluation|split; by_evaluation|split; by_evaluation
    |by_evaluation|by_evaluation].
Defined.

(** X15: when the two count columns hold whole numbers that add up
    exactly and one of the two totals is 0 while the other is not, the
    percentage of the other is 100 and that of the first is 0. *)
Theorem one_sided_delivery_percentages df :
  "success_count" ∈ columns df → "fail_count" ∈ columns df →
  exact_column "success_count" (rows df) →
  exact_column "fail_count" (rows df) →
  ∃ v, delivery_performance df = Ok (Some v)
    ∧ (total_fail v = 0%Qc → total_success v ≠ 0%Qc →
       success_pct v = Qc_of_nat 100 ∧ fail_pct v = 0%Qc)
    ∧ (total_success v = 0%Qc → total_fail v ≠ 0%Qc →
       success_pct v = 0%Qc ∧ fail_pct v = Qc_of_nat 100).
Proof.
  intros Hs Hf Hns%exact_column_numeric Hnf%exact_column_numeric.
  unfold delivery_performance.
  rewrite decide_True by done. rewrite !getitem_Ok by done.
  repeat (rewrite ?bind_Ok, ?column_sum by auto).
  eexists. split; [reflexivity|].
  cbn [success_pct fail_pct total_success total_fail].
  split; intros -> Hne.
  - rewrite !decide_False by (by rewrite Qcplus_0_r). split; by field.
  - rewrite !decide_False by (by rewrite Qcplus_0_l). split; by field.
Qed.

Lemma one_sided_delivery_percentages_witness :
  ∃ v, delivery_performance shared_job_frame = Ok (Some v)
    ∧ success_pct v = Qc_of_nat 100 ∧ fail_pct v = 0%Qc.
Proof.
  destruct (one_sided_delivery_percentages shared_job_frame)
    as (v & E & H100 & _);
    [by_evaluation|by_evaluation|by_evaluation|by_evaluation|].
  exists v. split; [exact E|].
  vm_compute in E. injection E as <-. apply H100; by_evaluation.
Defined.

(** X16: the two filters commute: the route filter followed by the date
    filter returns the frame that lines 48-58 return. *)
Theorem filters_commute df date_range route_filter :
  datetime_column df "assign_date" →
  ∃ df', apply_filters df date_range route_filter = Ok df'
    ∧ (d ← route_filter_step df route_filter; date_filter d date_range) = Ok df'.
Proof.
  intros Hdt. eexists. split; [by apply apply_filters_spec|].
  rewrite route_filter_step_spec, bind_Ok.
  rewrite date_filter_spec.
  - cbn [columns rows]. do 2 f_equal.
    unfold active_dates. cbn [columns]. fold (active_dates df date_range).
    rewrite list_filter_filter. apply list_filter_iff. unfold kept_row. tauto.
  - intros Ha. cbn [rows columns] in *. apply Forall_filter_rows. by apply Hdt.
Qed.

Lemma filters_commute_witness :
  ∃ df', apply_filters sample_frame (DateTuple [19723; 19724]%Z) [Str "A"] = Ok df'
    ∧ (d ← route_filter_step sample_frame [Str "A"];
       date_filter d (DateTuple [19723; 19724]%Z)) = Ok df'
    ∧ length (rows df') = 2%nat.
Proof.
  destruct (filters_commute sample_frame (DateTuple [19723; 19724]%Z) [Str "A"])
    as (df' & E1 & E2); [intros _; by_evaluation|].
  exists df'. split; [exact E1|]. split; [exact E2|].
  vm_compute in E1. injection E1 as <-. reflexivity.
Defined.

(** X17: an upload whose renamed labels are pairwise different and
    include both cost columns, and which lacks a job or count column,
    stops the script with KeyError on the first of [job_id],
    [num_deliveries] and [num_items] that is absent, whatever the
    filters. *)
Theorem missing_required_column_raises `{Parsers} df_raw date_range route_filter :
  distinct_labels (renamed df_raw) →
  "total_cost" ∈ columns (renamed df_raw) →
  "additional_cost" ∈ columns (renamed df_raw) →
  ("job_id" ∉ columns (renamed df_raw) →
   app df_raw date_range route_filter = Raise (KeyError "job_id"))
  ∧ ("job_id" ∈ columns (renamed df_raw) →
     "num_deliveries" ∉ columns (renamed df_raw) →
     app df_raw date_range route_filter = Raise (KeyError "num_deliveries"))
  ∧ ("job_id" ∈ columns (renamed df_raw) →
     "num_deliveries" ∈ columns (renamed df_raw) →
     numeric_column (renamed df_raw) "num_deliveries" →
     "num_items" ∉ columns (renamed df_raw) →
     app df_raw date_range route_filter = Raise (KeyError "num_items")).
Proof. intros _. apply app_missing_required. Qed.

Lemma missing_required_column_raises_witness :
  ("job_id" ∉ columns (renamed upload_without_job_id))
  ∧ app (H := no_parsers) upload_without_job_id (DateValue 19723) [Str "A"]
    = Raise (KeyError "job_id").
Proof.
  assert (Hj : "job_id" ∉ columns (renamed upload_without_job_id)) by by_evaluation.
  split; [exact Hj|].
  destruct (missing_required_column_raises (H := no_parsers) upload_without_job_id
              (DateValue 19723) [Str "A"]) as (E & _);
    [by_evaluation|by_evaluation|by_evaluation|].
  exact (E Hj).
Defined.

(** ** The chart of line 101 *)

Lemma Sorted_take {A} (R : relation A) (l : list A) n :
  Sorted R l → Sorted R (take n l).
Proof.
  intros Hl. revert n. induction Hl as [|a l _ IH Hd]; intros [|n];
    cbn [take]; try constructor; [apply IH|].
  destruct Hd as [|b l' Hab]; destruct n; constructor. exact Hab.
Qed.

#[global] Instance cost_desc_total :
  Total (λ a b : cell * Qc, Is_true (bool_decide (b.2 ≤ a.2)%Qc)).
Proof.
  intros a b. destruct (Qc_le_total a.2 b.2); [right|left];
    by apply bool_decide_pack.
Qed.

Lemma routes_cost_closed df :
  "route_name" ∈ columns df → "cost_sum" ∈ columns df →
  numeric_column df "cost_sum" →
  routes_cost df
  = Ok (take 10 (sort_values (λ a b : cell * Qc, bool_decide (b.2 ≤ a.2)%Qc)
                   ((λ k, (k, column_total "cost_sum" (route_rows (rows df) k)))
                      <$> group_keys (at_label "route_name" <$> rows df)))).
Proof.
  intros Hr Hc Hnc. unfold routes_cost.
  rewrite !getitem_Ok, !bind_Ok by done.
  rewrite (result_map_Ok _ (λ k, (k, column_total "cost_sum" (route_rows (rows df) k)))).
  - by rewrite bind_Ok.
  - apply Forall_forall. intros k _. rewrite group_values_rows.
    fold (route_rows (rows df) k).
    by rewrite column_sum, bind_Ok by (apply Forall_filter_rows; auto).
Qed.

(** X18: the chart of line 101 has at most ten bars, for pairwise
    different routes, in descending order of the cost; each bar is a
    row of the route table of lines 111-115 with the same total cost,
    and with at most ten routes every row of that table has its bar. *)
Theorem routes_cost_chart df :
  "route_name" ∈ columns df → "job_id" ∈ columns df →
  "cost_sum" ∈ columns df → numeric_column df "cost_sum" →
  ∃ bars rp, routes_cost df = Ok bars ∧ route_groups df = Ok rp
    ∧ (length bars ≤ 10)%nat
    ∧ NoDup (fst <$> bars)
    ∧ Sorted (λ a b : cell * Qc, (b.2 ≤ a.2)%Qc) bars
    ∧ (∀ bar, bar ∈ bars →
         ∃ row, row ∈ rp ∧ rp_route_name row = bar.1 ∧ rp_total_cost row = bar.2)
    ∧ ((length rp ≤ 10)%nat →
         bars ≡ₚ (λ row, (rp_route_name row, rp_total_cost row)) <$> rp).
Proof.
  intros Hr Hj Hc Hnc. eexists _, _.
  split; [by apply routes_cost_closed|]. split; [by apply route_groups_Ok|].
  set (keys := group_keys (at_label "route_name" <$> rows df)).
  set (l := (λ k, (k, column_total "cost_sum" (route_rows (rows df) k))) <$> keys).
  set (leb := λ a b : cell * Qc, bool_decide (b.2 ≤ a.2)%Qc).
  assert (Hperm : sort_values leb l ≡ₚ l) by apply merge_sort_Permutation.
  assert (Efst : fst <$> l = keys).
  { subst l. rewrite <- list_fmap_compose.
    rewrite <- (list_fmap_id keys) at 2. by apply list_fmap_ext. }
  assert (Erp : (λ row, (rp_route_name row, rp_total_cost row))
                  <$> (route_row_of (rows df) <$> keys) = l).
  { subst l. rewrite <- list_fmap_compose. by apply list_fmap_ext. }
  split_and!.
  - rewrite length_take. lia.
  - rewrite fmap_take. eapply sublist_NoDup; [|apply sublist_take].
    rewrite Hperm, Efst. apply NoDup_group_keys.
  - apply Sorted_take. unfold sort_values.
    eapply Sorted_weaken; [|apply Sorted_merge_sort; apply _].
    intros a b Hab. by apply bool_decide_unpack in Hab.
  - intros bar Hbar%subseteq_take. rewrite Hperm in Hbar.
    apply list_elem_of_fmap in Hbar as (k & -> & Hk).
    exists (route_row_of (rows df) k). split; [|done].
    by apply list_elem_of_fmap_2.
  - rewrite length_fmap. intros Hlen. rewrite Erp.
    rewrite take_ge; [exact Hperm|].
    rewrite Hperm. subst l. by rewrite length_fmap.
Qed.

Lemma routes_cost_chart_witness :
  ∃ bars, routes_cost sample_frame = Ok bars
    ∧ (fst <$> bars) = [Str "A"; Str "B"]
    ∧ (Num ∘ snd <$> bars) = [num 400; num 50].
Proof.
  destruct (routes_cost_chart sample_frame) as (bars & rp & E & _);
    [by_evaluation|by_evaluation|by_evaluation|intros _; by_evaluation|].
  exists bars. split; [exact E|].
  vm_compute in E. injection E as <-. split; reflexivity.
Defined.
